(** * Campus energy dashboard: the ingestion pipeline of [main.py]

    A shallow embedding of [load_and_combine_data] (main.py, lines 8-35) and
    of the pandas / pathlib operations it calls, followed by the properties
    of the ingestion pipeline.

    Reading guide.
    - Python text is [string]; the model covers code points below 128, where
      [str.strip] and [str.lower] are given by the character codes.  Other
      bytes are carried through unchanged.
    - A [DataFrame] is a list of column labels and a list of rows, one cell
      per label (pandas keeps frames rectangular).
    - An exception is a value of [exn]; a computation that may raise returns
      a [result].
    - [print] appends to the console, modelled as the list of lines written.
    - The two calls that reach outside the program, [pd.read_csv] and
      [pd.to_datetime], are parameters of the development.
    - [pd.concat] is modelled for the place of every cell.  It may change
      the dtype of a numeric column, so the cells of a merged frame are
      compared through [keeps]: text and missing values exactly, a number as
      a number.
    - The builtin [sum] is a parameter of the classes: it is a fold of [+]
      on [int], not on [float]. *)

From Stdlib Require Import List String Ascii Bool Arith ZArith Lia Permutation.
From Stdlib Require DecimalString.
Import ListNotations.
Local Open Scope string_scope.
Local Open Scope list_scope.

Set Implicit Arguments.

(** ** Python strings *)

Module PyStr.

(** [str.isspace] on one character below 128: TAB, LF, VT, FF, CR, the four
    separators FS, GS, RS, US and the space. *)
Definition isspace (c : ascii) : bool :=
  let n := nat_of_ascii c in
  (((9 <=? n) && (n <=? 13)) || ((28 <=? n) && (n <=? 32)))%nat.

Definition isupper (c : ascii) : bool :=
  let n := nat_of_ascii c in ((65 <=? n) && (n <=? 90))%nat.

(** [c.lower()] for one character. *)
Definition lower_char (c : ascii) : ascii :=
  if isupper c then ascii_of_nat (nat_of_ascii c + 32) else c.

(** [s.lower()] *)
Fixpoint lower (s : string) : string :=
  match s with
  | EmptyString => EmptyString
  | String c s' => String (lower_char c) (lower s')
  end.

(** [s.lstrip()] *)
Fixpoint lstrip (s : string) : string :=
  match s with
  | EmptyString => EmptyString
  | String c s' => if isspace c then lstrip s' else s
  end.

(** [s.rstrip()] *)
Fixpoint rstrip (s : string) : string :=
  match s with
  | EmptyString => EmptyString
  | String c s' =>
      match rstrip s' with
      | EmptyString => if isspace c then EmptyString else String c EmptyString
      | t => String c t
      end
  end.

(** [s.strip()] *)
Definition strip (s : string) : string := rstrip (lstrip s).

(** [s.split(sep)] for a one-character separator: never the empty list. *)
Fixpoint split (sep : ascii) (s : string) : list string :=
  match s with
  | EmptyString => [EmptyString]
  | String c s' =>
      if Ascii.eqb c sep then EmptyString :: split sep s'
      else match split sep s' with
           | t :: ts => String c t :: ts
           | [] => [String c EmptyString]
           end
  end.

(** [s.rfind(".")]: the index of the last dot, [None] for Python's -1. *)
Fixpoint rfind_dot (s : string) : option nat :=
  match s with
  | EmptyString => None
  | String c s' =>
      match rfind_dot s' with
      | Some i => Some (S i)
      | None => if Ascii.eqb c "."%char then Some 0 else None
      end
  end.

End PyStr.

(** ** pathlib *)

(** A path of the folder [data] is identified by its final component. *)
Definition Path := string.

(** [PurePath.stem]: the name without its last suffix.  pathlib takes
    [i = name.rfind('.')] and cuts at [i] when [0 < i < len(name) - 1]. *)
Definition stem (file : Path) : string :=
  match PyStr.rfind_dot file with
  | Some i =>
      if ((0 <? i) && (i <? String.length file - 1))%nat
      then substring 0 i file
      else file
  | None => file
  end.

(** ** Exceptions *)

(** The exceptions this program can meet, all subclasses of [Exception]. *)
Inductive exn : Type :=
| OSError (msg : string)          (* the file cannot be opened or read *)
| UnicodeDecodeError              (* the bytes are not UTF-8 *)
| EmptyDataError                  (* pandas: no columns to parse from file *)
| ParserError                     (* pandas: malformed delimited text *)
| IndexError                      (* list index out of range *)
| KeyError (key : string)
| ValueError (msg : string)
| InvalidIndexError.              (* pandas: reindexing on duplicate labels *)

Inductive result (A : Type) : Type :=
| Ok (a : A)
| Raise (e : exn).

Arguments Ok {A} a.
Arguments Raise {A} e.

Definition bind {A B} (r : result A) (k : A -> result B) : result B :=
  match r with
  | Ok a => k a
  | Raise e => Raise e
  end.

Notation "x <- r ;; k" := (bind r (fun x => k))
  (at level 61, r at next level, right associativity).

(** [xs[i]] on a Python list. *)
Definition list_item {A} (xs : list A) (i : nat) : result A :=
  match nth_error xs i with
  | Some x => Ok x
  | None => Raise IndexError
  end.

(** ** pandas *)

(** One cell of a frame.  [Num] is a numeric cell, named by the numeral read
    from the file: the pipeline does no arithmetic on it, and the numeral
    stands for the number as [read_csv] holds it.  [Timestamp] counts
    nanoseconds from the epoch, [NaT] is the missing timestamp, [NaN] the
    missing value. *)
Inductive cell : Type :=
| Str (s : string)
| Num (numeral : string)
| NaN
| Timestamp (ns : Z)
| NaT.

Record DataFrame : Type := mkFrame {
  columns : list string;
  rows : list (list cell)
}.

(** pandas keeps every row as long as the header. *)
Definition rectangular (df : DataFrame) : Prop :=
  Forall (fun r => List.length r = List.length (columns df)) (rows df).

Definition has_label (key : string) (labels : list string) : bool :=
  existsb (String.eqb key) labels.

(** The cell of [row] under the first label equal to [key]; [NaN] when the
    row has none. *)
Fixpoint lookup (key : string) (labels : list string) (row : list cell)
  : cell :=
  match labels, row with
  | l :: ls, c :: cs => if String.eqb l key then c else lookup key ls cs
  | _, _ => NaN
  end.

(** The rows of a frame read through the labels [keys], in row order. *)
Definition view (keys : list string) (df : DataFrame) : list (list cell) :=
  map (fun r => map (fun k => lookup k (columns df) r) keys) (rows df).

(** Every cell of [row] labelled [key] replaced by [v]. *)
Fixpoint set_where (key : string) (v : cell) (labels : list string)
    (row : list cell) : list cell :=
  match labels, row with
  | l :: ls, c :: cs =>
      (if String.eqb l key then v else c) :: set_where key v ls cs
  | _, _ => row
  end.

(** [df.columns = df.columns.map(f)]: labels are replaced by position. *)
Definition rename_columns (f : string -> string) (df : DataFrame) : DataFrame :=
  {| columns := map f (columns df); rows := rows df |}.

(** [df[key] = v] for a scalar [v]: a new column at the end when [key] is no
    label of the frame; otherwise every column labelled [key] is overwritten. *)
Definition setitem_scalar (key : string) (v : cell) (df : DataFrame)
  : DataFrame :=
  if has_label key (columns df)
  then {| columns := columns df;
          rows := map (set_where key v (columns df)) (rows df) |}
  else {| columns := columns df ++ [key];
          rows := map (fun r => r ++ [v]) (rows df) |}.

(** The labels of [l] in order of first appearance. *)
Fixpoint unique_from (seen l : list string) : list string :=
  match l with
  | [] => []
  | x :: xs =>
      if has_label x seen then unique_from seen xs
      else x :: unique_from (x :: seen) xs
  end.

Definition unique (l : list string) : list string := unique_from [] l.

Fixpoint is_unique (l : list string) : bool :=
  match l with
  | [] => true
  | x :: xs => negb (has_label x xs) && is_unique xs
  end.

(** [row] of a frame labelled [labels] laid out under [new_labels]; a label
    the frame lacks is filled with [NaN]. *)
Definition reindex (new_labels labels : list string) (row : list cell)
  : list cell :=
  map (fun k => lookup k labels row) new_labels.

(** [pd.concat(objs, ignore_index=True)]: rows in the order of [objs], under
    the union of the labels in order of first appearance.  Frames with equal
    headers are stacked as they are.  Otherwise every frame is reindexed,
    which pandas refuses on a header with a repeated label.

    This gives the place of every cell and which cells are filled.  It
    carries a [Num] cell with its numeral, where pandas brings the numbers
    of a column to one dtype: what [concat] keeps of a cell is read with
    [keeps] below. *)
Definition concat (objs : list DataFrame) : result DataFrame :=
  match objs with
  | [] => Raise (ValueError "No objects to concatenate")
  | d :: ds =>
      if forallb (fun o => if list_eq_dec string_dec (columns o) (columns d)
                           then true else false) ds
      then Ok {| columns := columns d; rows := flat_map rows objs |}
      else if forallb (fun o => is_unique (columns o)) objs
      then let new_labels := unique (flat_map columns objs) in
           Ok {| columns := new_labels;
                 rows := flat_map (fun o => map (reindex new_labels (columns o))
                                                (rows o)) objs |}
      else Raise InvalidIndexError
  end.

(** [df[key]] as a Series. *)
Definition column (key : string) (df : DataFrame) : list cell :=
  map (lookup key (columns df)) (rows df).

(** [df[key] = series]: the series is aligned on the row index; a row past
    its end gets [NaN]. *)
Fixpoint assign_series (key : string) (labels : list string)
    (series : list cell) (rs : list (list cell)) : list (list cell) :=
  match rs with
  | [] => []
  | r :: rs' =>
      set_where key (hd NaN series) labels r
        :: assign_series key labels (tl series) rs'
  end.

Definition setitem_series (key : string) (series : list cell)
    (df : DataFrame) : DataFrame :=
  {| columns := columns df;
     rows := assign_series key (columns df) series (rows df) |}.

(** What [pd.concat] keeps of a cell.  The result has one dtype per column:
    the numbers of an int64 column come out as float64 when another frame
    holds float64 under that label, or lacks the label and is filled with
    [NaN], so 7 reads 7.0 and an integer beyond 2^53 is rounded.  A number
    stays a number; text, a timestamp and a missing value stay what they
    are. *)
Inductive kept : Type :=
| Text (s : string)
| Number
| Missing
| Instant (ns : Z)
| MissingInstant.

Definition keeps (c : cell) : kept :=
  match c with
  | Str s => Text s
  | Num _ => Number
  | NaN => Missing
  | Timestamp ns => Instant ns
  | NaT => MissingInstant
  end.

(** The rows of a frame read through [keys], each cell for what [pd.concat]
    keeps of it. *)
Definition kept_view (keys : list string) (df : DataFrame)
  : list (list kept) :=
  map (map keeps) (view keys df).

(** ** The ingestion pipeline (main.py, lines 8-35) *)

(** One line of the console: [print(f"Error loading {file}: {e}")]. *)
Definition message : Type := (Path * exn)%type.

(** The state of the loop of lines 14-28. *)
Record loop_state : Type := mkState {
  df_list : list DataFrame;
  console : list message
}.

Section Pipeline.

(** [pd.read_csv(file, encoding="utf-8-sig")] *)
Variable read_csv : Path -> result DataFrame.

(** [pd.to_datetime(series, dayfirst=False)], with pandas' default
    [errors="raise"]. *)
Variable to_datetime : list cell -> result (list cell).

(** Line 20: strip spaces and lowercase. *)
Definition canonical (label : string) : string :=
  PyStr.lower (PyStr.strip label).

(** Lines 17-23, the body of the [try] up to the frame that is appended.
    The right-hand side of line 23 is evaluated before the assignment, so a
    stem with a single token raises [IndexError] and assigns nothing. *)
Definition try_body (file : Path) : result DataFrame :=
  df <- read_csv file ;;
  let df := rename_columns canonical df in
  building <- list_item (PyStr.split "_"%char (stem file)) 1 ;;
  Ok (setitem_scalar "building" (Str building) df).

(** Lines 15-28: one turn of the loop. *)
Definition loop_body (st : loop_state) (file : Path) : loop_state :=
  match try_body file with
  | Ok df => {| df_list := df_list st ++ [df]; console := console st |}
  | Raise e => {| df_list := df_list st; console := console st ++ [(file, e)] |}
  end.

(** Lines 12-28. *)
Definition ingest (all_files : list Path) : loop_state :=
  fold_left loop_body all_files {| df_list := []; console := [] |}.

(** Line 33.  [df_combined["timestamp"]] raises [KeyError] when no column
    has that label and is a Series when one has; when several have it is a
    frame, which [pd.to_datetime] refuses to assemble. *)
Definition convert_timestamp (df_combined : DataFrame) : result DataFrame :=
  match count_occ string_dec (columns df_combined) "timestamp" with
  | 0 => Raise (KeyError "timestamp")
  | 1 =>
      series <- to_datetime (column "timestamp" df_combined) ;;
      Ok (setitem_series "timestamp" series df_combined)
  | _ => Raise (ValueError "cannot assemble with duplicate keys")
  end.

(** The frames that the files of [all_files] give, in the order of
    [all_files]: what the loop is shown to collect ([ingest_loaded_failed]). *)
Definition loaded (all_files : list Path) : list DataFrame :=
  flat_map (fun file => match try_body file with
                        | Ok df => [df]
                        | Raise _ => []
                        end) all_files.

(** The files of [all_files] that raise inside the [try], with what they
    raise: what the loop is shown to print. *)
Definition failed (all_files : list Path) : list message :=
  flat_map (fun file => match try_body file with
                        | Ok _ => []
                        | Raise e => [(file, e)]
                        end) all_files.

(** [load_and_combine_data()]: what it returns or raises, and what it has
    printed by then.  [all_files] is what [folder.glob("*.csv")] yields, in
    the order it yields it. *)
Definition load_and_combine_data (all_files : list Path)
  : result DataFrame * list message :=
  let st := ingest all_files in
  (df_combined <- concat (df_list st) ;; convert_timestamp df_combined,
   console st).

End Pipeline.

(** ** The tokens of a file name, as the specification words them *)

(** [c] does not occur in [s]. *)
Fixpoint free_of (c : ascii) (s : string) : Prop :=
  match s with
  | EmptyString => True
  | String a s' => a <> c /\ free_of c s'
  end.

(** [b] is the second of the tokens that [c] separates in [s]. *)
Definition second_token (c : ascii) (s b : string) : Prop :=
  exists first rest,
    s = (first ++ String c (b ++ rest))%string
    /\ free_of c first /\ free_of c b
    /\ (rest = EmptyString \/ exists rest', rest = String c rest').

(** ** Headers that differ in padding and case *)

(** Every character of [s] is white space. *)
Fixpoint blank (s : string) : Prop :=
  match s with
  | EmptyString => True
  | String c s' => PyStr.isspace c = true /\ blank s'
  end.

(** The same character, or the same letter of A-Z in its two cases. *)
Definition same_letter (a b : ascii) : Prop :=
  let m := nat_of_ascii a in
  let n := nat_of_ascii b in
  a = b \/ (65 <= m <= 90 /\ n = m + 32) \/ (65 <= n <= 90 /\ m = n + 32).

(** [s] and [t] are equal up to the case of their letters. *)
Fixpoint same_ignoring_case (s t : string) : Prop :=
  match s, t with
  | EmptyString, EmptyString => True
  | String a s', String b t' => same_letter a b /\ same_ignoring_case s' t'
  | _, _ => False
  end.

(** ** The folder and its enumeration *)

(** [fnmatch(name, "*.csv")] on a case-sensitive file system. *)
Definition matches_csv (name : string) : bool :=
  let n := String.length name in
  (4 <=? n)%nat && String.eqb (substring (n - 4) 4 name) ".csv".

(** [folder.glob("*.csv")]: every matching entry of the folder once, in the
    order the operating system enumerates them.  pathlib does not sort, so
    [entries] fixes the files and not their order. *)
Definition glob_csv (entries all_files : list Path) : Prop :=
  Permutation (filter matches_csv entries) all_files.

(** ** Fixtures for the examples *)

(** A folder's files with what [pd.read_csv] makes of each. *)
Definition disk : Type := list (Path * result DataFrame).

Fixpoint read_from (d : disk) (file : Path) : result DataFrame :=
  match d with
  | [] => Raise (OSError "No such file or directory")
  | (p, r) :: d' => if String.eqb p file then r else read_from d' file
  end.

(** [pd.to_datetime] on the texts of the examples: a text of [calendar]
    becomes its instant, a missing value becomes [NaT], and any other text
    raises, as pandas does on text it cannot parse.  The timestamp columns
    of the examples hold no number. *)
Definition calendar : list (string * Z) :=
  [ ("2024-01-01 00:00:00", 1704067200000000000%Z);
    ("2024-01-01 01:00:00", 1704070800000000000%Z);
    ("2024-01-02 00:00:00", 1704153600000000000%Z);
    ("1/15/2024",           1705276800000000000%Z) ].

Fixpoint instant_of (table : list (string * Z)) (text : string) : option Z :=
  match table with
  | [] => None
  | (t, ns) :: table' =>
      if String.eqb t text then Some ns else instant_of table' text
  end.

Definition to_datetime_cell (c : cell) : result cell :=
  match c with
  | Str text =>
      match instant_of calendar text with
      | Some ns => Ok (Timestamp ns)
      | None => Raise (ValueError "Unknown datetime string format")
      end
  | Num _ => Raise (ValueError "Unknown datetime string format")
  | NaN | NaT => Ok NaT
  | Timestamp ns => Ok (Timestamp ns)
  end.

Fixpoint to_datetime_texts (series : list cell) : result (list cell) :=
  match series with
  | [] => Ok []
  | c :: cs =>
      t <- to_datetime_cell c ;;
      ts <- to_datetime_texts cs ;;
      Ok (t :: ts)
  end.

(** elec_A_jan.csv: two well-formed rows under padded, capitalised labels. *)
Definition elec_A : DataFrame :=
  {| columns := [" Timestamp "; "KWH"];
     rows := [ [Str "2024-01-01 00:00:00"; Num "12.5"];
               [Str "2024-01-01 01:00:00"; Num "11.0"] ] |}.

(** elec_B_feb.csv: one row whose timestamp is no date. *)
Definition elec_B_bad_date : DataFrame :=
  {| columns := ["timestamp"; "kwh"];
     rows := [ [Str "13/45/2024"; Num "7.0"] ] |}.

(** elec_E_may.csv: no timestamp column. *)
Definition elec_E_no_timestamp : DataFrame :=
  {| columns := ["kwh"; "meter"];
     rows := [ [Num "7.0"; Str "m-2"] ] |}.

(** elec_C_mar.csv: a header and no data row. *)
Definition elec_C_header_only : DataFrame :=
  {| columns := ["timestamp"; "kwh"]; rows := [] |}.

(** elec_D_apr.csv: the file has a column of its own called Building. *)
Definition elec_D_own_building : DataFrame :=
  {| columns := ["timestamp"; "kwh"; "Building"];
     rows := [ [Str "2024-01-02 00:00:00"; Num "3.0"; Str "Library"] ] |}.

(** The folder [data] of the examples: each file with what [pd.read_csv]
    makes of it.  readings.csv is a well-formed file whose name has no
    underscore; broken_F_jun.csv is malformed; notes.txt is no CSV file. *)
Definition campus : disk :=
  [ ("elec_A_jan.csv", Ok elec_A);
    ("elec_B_feb.csv", Ok elec_B_bad_date);
    ("elec_C_mar.csv", Ok elec_C_header_only);
    ("elec_D_apr.csv", Ok elec_D_own_building);
    ("elec_E_may.csv", Ok elec_E_no_timestamp);
    ("readings.csv", Ok elec_A);
    ("broken_F_jun.csv", Raise ParserError) ].

(** [load_and_combine_data()] on the files [all_files] of that folder, and
    what its loop collects and prints. *)
Definition run (all_files : list Path) : result DataFrame * list message :=
  load_and_combine_data (read_from campus) to_datetime_texts all_files.

Definition collected (all_files : list Path) : list DataFrame :=
  df_list (ingest (read_from campus) all_files).

Definition printed (all_files : list Path) : list message :=
  console (ingest (read_from campus) all_files).

(** The frames returned in the examples. *)
Definition frame_A : DataFrame :=
  {| columns := ["timestamp"; "kwh"; "building"];
     rows := [ [Timestamp 1704067200000000000; Num "12.5"; Str "A"];
               [Timestamp 1704070800000000000; Num "11.0"; Str "A"] ] |}.

Definition frame_A_D : DataFrame :=
  {| columns := ["timestamp"; "kwh"; "building"];
     rows := [ [Timestamp 1704067200000000000; Num "12.5"; Str "A"];
               [Timestamp 1704070800000000000; Num "11.0"; Str "A"];
               [Timestamp 1704153600000000000; Num "3.0"; Str "D"] ] |}.

Definition frame_D_A : DataFrame :=
  {| columns := ["timestamp"; "kwh"; "building"];
     rows := [ [Timestamp 1704153600000000000; Num "3.0"; Str "D"];
               [Timestamp 1704067200000000000; Num "12.5"; Str "A"];
               [Timestamp 1704070800000000000; Num "11.0"; Str "A"] ] |}.

Definition frame_A_E : DataFrame :=
  {| columns := ["timestamp"; "kwh"; "building"; "meter"];
     rows := [ [Timestamp 1704067200000000000; Num "12.5"; Str "A"; NaN];
               [Timestamp 1704070800000000000; Num "11.0"; Str "A"; NaN];
               [NaT; Num "7.0"; Str "E"; Str "m-2"] ] |}.

(** elec_A_jan.csv and elec_E_may.csv concatenated, before line 33. *)
Definition combined_A_E : DataFrame :=
  {| columns := ["timestamp"; "kwh"; "building"; "meter"];
     rows := [ [Str "2024-01-01 00:00:00"; Num "12.5"; Str "A"; NaN];
               [Str "2024-01-01 01:00:00"; Num "11.0"; Str "A"; NaN];
               [NaN; Num "7.0"; Str "E"; Str "m-2"] ] |}.

Definition frame_D : DataFrame :=
  {| columns := ["timestamp"; "kwh"; "building"];
     rows := [ [Timestamp 1704153600000000000; Num "3.0"; Str "D"] ] |}.

(** ** The classes of lines 52-80 *)

(** A Python [dict] with text keys: its items in insertion order, one per
    key. *)
Definition dict (V : Type) : Type := list (string * V).

(** [d.get(key)], [None] standing for a missing key. *)
Fixpoint dict_get {V} (d : dict V) (key : string) : option V :=
  match d with
  | [] => None
  | (k, v) :: d' => if String.eqb k key then Some v else dict_get d' key
  end.

(** [key in d] *)
Definition dict_contains {V} (d : dict V) (key : string) : bool :=
  has_label key (map fst d).

(** [d[key] = v] for a key that [d] lacks: the item goes last. *)
Definition dict_insert {V} (d : dict V) (key : string) (v : V) : dict V :=
  d ++ [(key, v)].

(** The object stored under [key] mutated by [f]. *)
Fixpoint dict_mutate {V} (f : V -> V) (d : dict V) (key : string) : dict V :=
  match d with
  | [] => []
  | (k, v) :: d' =>
      if String.eqb k key then (k, f v) :: d'
      else (k, v) :: dict_mutate f d' key
  end.

(** The line feed of the f-string of line 71. *)
Definition nl : string := String (ascii_of_nat 10) EmptyString.

Section Meter.

(** The values of [kwh] with Python's builtin [sum] on a sequence of them
    and [>]; the values of [timestamp]; how an f-string renders each.
    [sum] stays a parameter: on [int] it is the exact left fold of [+] from
    [0] ([int_sum] below), on [float] CPython adds with a compensated
    running total since version 3.12, which is not a fold of [+]. *)
Variable K : Type.
Variable kwh_sum : list K -> K.
Variable kwh_gt : K -> K -> bool.
Variable kwh_str : K -> string.
Variable T : Type.
Variable timestamp_str : T -> string.

(** Lines 52-55. *)
Record MeterReading : Type := mkReading {
  timestamp : T;
  kwh : K
}.

(** Lines 57-60: [Building(name)] starts without readings. *)
Record Building : Type := mkBuilding {
  name : string;
  meter_readings : list MeterReading
}.

Definition Building_init (name : string) : Building :=
  {| name := name; meter_readings := [] |}.

(** Lines 62-63. *)
Definition Building_add_reading (self : Building) (reading : MeterReading)
  : Building :=
  {| name := name self;
     meter_readings := meter_readings self ++ [reading] |}.

(** Lines 65-66. *)
Definition total_consumption (self : Building) : K :=
  kwh_sum (map kwh (meter_readings self)).

(** [max(rs, key=lambda r: r.kwh)]: the first item is kept until a later
    one has a key that is [>] the key kept; an empty list raises. *)
Fixpoint max_from (best : MeterReading) (rs : list MeterReading)
  : MeterReading :=
  match rs with
  | [] => best
  | r :: rs' => max_from (if kwh_gt (kwh r) (kwh best) then r else best) rs'
  end.

Definition py_max (rs : list MeterReading) : result MeterReading :=
  match rs with
  | [] => Raise (ValueError "max() arg is an empty sequence")
  | r :: rs' => Ok (max_from r rs')
  end.

(** Lines 68-71. *)
Definition generate_report (self : Building) : result string :=
  let total := total_consumption self in
  peak <- py_max (meter_readings self) ;;
  Ok ("Building: " ++ name self ++ nl
      ++ "Total Consumption: " ++ kwh_str total ++ nl
      ++ "Peak: " ++ kwh_str (kwh peak) ++ " at "
      ++ timestamp_str (timestamp peak) ++ nl)%string.

(** Lines 73-75: [BuildingManager()] starts with an empty dict. *)
Record BuildingManager : Type := mkManager {
  buildings : dict Building
}.

Definition BuildingManager_init : BuildingManager := {| buildings := [] |}.

(** Lines 77-80. *)
Definition BuildingManager_add_reading (self : BuildingManager)
    (building_name : string) (reading : MeterReading) : BuildingManager :=
  let buildings1 :=
    if dict_contains (buildings self) building_name
    then buildings self
    else dict_insert (buildings self) building_name
           (Building_init building_name) in
  {| buildings :=
       dict_mutate (fun b => Building_add_reading b reading)
                   buildings1 building_name |}.

(** A fresh manager after the calls [add_reading(name, reading)] of
    [calls], in their order. *)
Definition manager_after (calls : list (string * MeterReading))
  : BuildingManager :=
  fold_left (fun m c => BuildingManager_add_reading m (fst c) (snd c))
            calls BuildingManager_init.

(** The readings that [calls] passes for [building_name], in their order. *)
Definition readings_for (building_name : string)
    (calls : list (string * MeterReading)) : list MeterReading :=
  map snd (filter (fun c => String.eqb (fst c) building_name) calls).

End Meter.

(** Readings with integer [kwh] and text timestamps, for the examples:
    [int_sum] is [sum] on [int]s, which are exact: from [0], one [+] per
    item, left to right; [decimal] is [str] on an [int]. *)
Definition int_sum (xs : list Z) : Z := fold_left Z.add xs 0%Z.

Definition decimal (z : Z) : string :=
  match z with
  | Z0 => "0"
  | Zpos p => DecimalString.NilZero.string_of_uint (Pos.to_uint p)
  | Zneg p =>
      String "-" (DecimalString.NilZero.string_of_uint (Pos.to_uint p))
  end.

Definition reading (t : string) (z : Z) : MeterReading Z string :=
  {| timestamp := t; kwh := z |}.

Definition report (b : Building Z string) : result string :=
  generate_report int_sum Z.gtb decimal (fun t => t) b.

Definition hall : Building Z string :=
  {| name := "A";
     meter_readings := [reading "t1" 5; reading "t2" 9; reading "t3" 9] |}.

Definition calls_A_B_A : list (string * MeterReading Z string) :=
  [("A", reading "t1" 5); ("B", reading "t2" 7); ("A", reading "t3" 1)].

Example stem_usage : stem "usage_B_2024.csv" = "usage_B_2024".
Proof. reflexivity. Qed.

Example stem_hidden : stem ".csv" = ".csv".
Proof. reflexivity. Qed.

Example split_usage :
  PyStr.split "_"%char "usage_B_2024" = ["usage"; "B"; "2024"].
Proof. reflexivity. Qed.

Example split_readings : PyStr.split "_"%char "readings" = ["readings"].
Proof. reflexivity. Qed.

Example canonical_timestamp_headers :
  map canonical [" Timestamp "; "TIMESTAMP"; "timestamp"]
  = ["timestamp"; "timestamp"; "timestamp"].
Proof. reflexivity. Qed.

Example building_of_usage_B :
  list_item (PyStr.split "_"%char (stem "usage_B_2024.csv")) 1 = Ok "B".
Proof. reflexivity. Qed.

Example building_of_readings :
  list_item (PyStr.split "_"%char (stem "readings.csv")) 1 = Raise IndexError.
Proof. reflexivity. Qed.

(** * Properties *)

(** ** Frames *)

Lemma view_length (keys : list string) (df : DataFrame) :
  List.length (view keys df) = List.length (rows df).
Proof. unfold view. apply length_map. Qed.

Lemma has_label_In (key : string) (labels : list string) :
  has_label key labels = true <-> In key labels.
Proof.
  unfold has_label. rewrite existsb_exists. split.
  - intros [x [Hx Heq]]. apply String.eqb_eq in Heq. now subst.
  - intros H. exists key. split; [assumption | apply String.eqb_refl].
Qed.

Lemma has_label_not_In (key : string) (labels : list string) :
  has_label key labels = false <-> ~ In key labels.
Proof.
  rewrite <- has_label_In. destruct (has_label key labels); split; congruence.
Qed.

Lemma lookup_not_In (key : string) (labels : list string) (row : list cell) :
  ~ In key labels -> lookup key labels row = NaN.
Proof.
  revert row. induction labels as [|l ls IH]; intros [|c cs] H; simpl; auto.
  destruct (String.eqb_spec l key) as [->|Hne].
  - exfalso. apply H. now left.
  - apply IH. intros Hin. apply H. now right.
Qed.

(** Reading a reindexed row gives what the original row gives. *)
Lemma lookup_map (key : string) (f : string -> cell) (labels : list string) :
  lookup key labels (map f labels)
  = if has_label key labels then f key else NaN.
Proof.
  induction labels as [|l ls IH]; simpl; auto.
  rewrite (String.eqb_sym key l).
  destruct (String.eqb_spec l key) as [->|Hne]; simpl; auto.
Qed.

Lemma lookup_reindex (key : string) (new_labels labels : list string)
    (row : list cell) :
  incl labels new_labels ->
  lookup key new_labels (reindex new_labels labels row) = lookup key labels row.
Proof.
  intros Hincl. unfold reindex. rewrite lookup_map.
  destruct (has_label key new_labels) eqn:E; auto.
  symmetry. apply lookup_not_In. apply has_label_not_In in E.
  intros Hin. apply E, Hincl, Hin.
Qed.

Lemma lookup_set_where_other (k key : string) (v : cell) (labels : list string)
    (row : list cell) :
  k <> key ->
  lookup k labels (set_where key v labels row) = lookup k labels row.
Proof.
  intros Hne. revert row.
  induction labels as [|l ls IH]; intros [|c cs]; simpl; auto.
  destruct (String.eqb_spec l k) as [->|Hlk].
  - destruct (String.eqb_spec k key); [contradiction | reflexivity].
  - apply IH.
Qed.

Lemma lookup_set_where_same (key : string) (v : cell) (labels : list string)
    (row : list cell) :
  In key labels -> List.length row = List.length labels ->
  lookup key labels (set_where key v labels row) = v.
Proof.
  revert row. induction labels as [|l ls IH]; intros [|c cs] Hin Hlen;
    simpl in *; try contradiction; try discriminate.
  destruct (String.eqb_spec l key) as [->|Hne]; auto.
  apply IH; [| lia]. destruct Hin; [contradiction | assumption].
Qed.

Lemma lookup_app_new (key : string) (v : cell) (labels : list string)
    (row : list cell) :
  ~ In key labels -> List.length row = List.length labels ->
  lookup key (labels ++ [key]) (row ++ [v]) = v.
Proof.
  revert row. induction labels as [|l ls IH]; intros [|c cs] Hin Hlen;
    simpl in *; try discriminate.
  - now rewrite String.eqb_refl.
  - destruct (String.eqb_spec l key) as [->|Hne].
    + exfalso. apply Hin. now left.
    + apply IH; [| lia]. intros H. apply Hin. now right.
Qed.

Lemma lookup_app_old (k key : string) (v : cell) (labels : list string)
    (row : list cell) :
  k <> key -> List.length row = List.length labels ->
  lookup k (labels ++ [key]) (row ++ [v]) = lookup k labels row.
Proof.
  intros Hne. revert row.
  induction labels as [|l ls IH]; intros [|c cs] Hlen;
    simpl in *; try discriminate.
  - destruct (String.eqb_spec key k); [congruence | reflexivity].
  - destruct (String.eqb_spec l k); auto.
Qed.

(** ** The union of the headers *)

Lemma unique_from_In (x : string) (l seen : list string) :
  In x (unique_from seen l) <-> In x l /\ ~ In x seen.
Proof.
  revert seen. induction l as [|y ys IH]; intros seen; simpl.
  - tauto.
  - destruct (has_label y seen) eqn:E.
    + apply has_label_In in E. rewrite IH. split.
      * intros [H1 H2]. auto.
      * intros [[->|H1] H2]; [contradiction | auto].
    + apply has_label_not_In in E. simpl. rewrite IH. simpl. split.
      * intros [->|[H1 H2]]; [auto |]. split; [auto | intros H; apply H2; auto].
      * intros [[->|H1] H2]; [auto |].
        destruct (string_dec y x) as [->|Hne]; [auto |].
        right. split; [auto |]. intros [H|H]; [congruence | contradiction].
Qed.

Lemma unique_In (x : string) (l : list string) : In x (unique l) <-> In x l.
Proof. unfold unique. rewrite unique_from_In. simpl. tauto. Qed.

Lemma unique_from_NoDup (l seen : list string) : NoDup (unique_from seen l).
Proof.
  revert seen. induction l as [|y ys IH]; intros seen; simpl.
  - constructor.
  - destruct (has_label y seen); [apply IH |].
    constructor; [| apply IH].
    rewrite unique_from_In. intros [_ H]. apply H. now left.
Qed.

Lemma is_unique_NoDup (l : list string) : is_unique l = true <-> NoDup l.
Proof.
  induction l as [|x l IH]; simpl.
  - split; [constructor | reflexivity].
  - rewrite andb_true_iff, negb_true_iff, has_label_not_In, IH.
    split; [intros [H1 H2]; now constructor | now inversion 1].
Qed.

Lemma count_occ_NoDup_In (x : string) (l : list string) :
  NoDup l -> In x l -> count_occ string_dec l x = 1.
Proof.
  intros Hnd Hin.
  apply NoDup_count_occ with (decA := string_dec) (x := x) in Hnd.
  apply (count_occ_In string_dec) in Hin. lia.
Qed.

(** ** [pd.concat] *)

Lemma view_flat_map_same_header (keys labels : list string)
    (objs : list DataFrame) :
  Forall (fun o => columns o = labels) objs ->
  view keys {| columns := labels; rows := flat_map rows objs |}
  = flat_map (view keys) objs.
Proof.
  unfold view. simpl. induction 1 as [|o os Ho _ IH]; simpl; auto.
  rewrite map_app, IH, Ho. reflexivity.
Qed.

Lemma view_flat_map_reindex (keys new_labels : list string)
    (objs : list DataFrame) :
  Forall (fun o => incl (columns o) new_labels) objs ->
  view keys {| columns := new_labels;
               rows := flat_map (fun o => map (reindex new_labels (columns o))
                                              (rows o)) objs |}
  = flat_map (view keys) objs.
Proof.
  unfold view. simpl. induction 1 as [|o os Ho _ IH]; simpl; auto.
  rewrite map_app, IH. f_equal. rewrite map_map.
  apply map_ext. intros r. apply map_ext. intros k.
  now apply lookup_reindex.
Qed.

(** Through any labels, the concatenation reads as the frames one after the
    other. *)
Lemma view_concat (keys : list string) (objs : list DataFrame) (m : DataFrame) :
  concat objs = Ok m -> view keys m = flat_map (view keys) objs.
Proof.
  unfold concat. destruct objs as [|d ds]; [discriminate |].
  destruct (forallb _ ds) eqn:Hsame.
  - intros [= <-].
    apply (@view_flat_map_same_header keys (columns d) (d :: ds)).
    constructor; [reflexivity |].
    rewrite forallb_forall in Hsame. apply Forall_forall. intros o Ho.
    specialize (Hsame o Ho). now destruct (list_eq_dec string_dec _ _).
  - destruct (forallb _ (d :: ds)); [| discriminate].
    intros [= <-].
    apply (@view_flat_map_reindex keys (unique (flat_map columns (d :: ds)))
             (d :: ds)).
    apply Forall_forall. intros o Ho x Hx.
    rewrite unique_In, in_flat_map. now exists o.
Qed.

Lemma kept_flat_map (keys : list string) (objs : list DataFrame) :
  map (map keeps) (flat_map (view keys) objs)
  = flat_map (kept_view keys) objs.
Proof.
  induction objs as [|d ds IH]; [reflexivity |].
  cbn [flat_map]. now rewrite map_app, IH.
Qed.

Lemma kept_view_flat_map (keys : list string) (m : DataFrame)
    (objs : list DataFrame) :
  view keys m = flat_map (view keys) objs ->
  kept_view keys m = flat_map (kept_view keys) objs.
Proof.
  intros H. change (kept_view keys m) with (map (map keeps) (view keys m)).
  rewrite H. apply kept_flat_map.
Qed.

Lemma concat_columns (objs : list DataFrame) (m : DataFrame) :
  concat objs = Ok m ->
  forall o x, In o objs -> In x (columns o) -> In x (columns m).
Proof.
  unfold concat. destruct objs as [|d ds]; [discriminate |].
  destruct (forallb _ ds) eqn:Hsame.
  - intros [= <-] o x [<-|Ho] Hx; simpl; auto.
    rewrite forallb_forall in Hsame. specialize (Hsame o Ho).
    destruct (list_eq_dec string_dec _ _) as [<-|]; [assumption | discriminate].
  - destruct (forallb _ (d :: ds)); [| discriminate].
    intros [= <-] o x Ho Hx.
    change (In x (unique (flat_map columns (d :: ds)))).
    rewrite unique_In, in_flat_map. now exists o.
Qed.

(** [pd.concat] returns on a non-empty list of frames without repeated
    labels, and what it returns has no repeated label. *)
Lemma concat_returns (objs : list DataFrame) :
  objs <> [] -> Forall (fun o => NoDup (columns o)) objs ->
  exists m, concat objs = Ok m /\ NoDup (columns m).
Proof.
  intros Hne Hnd. unfold concat. destruct objs as [|d ds]; [congruence |].
  destruct (forallb _ ds).
  - eexists. split; [reflexivity |]. now inversion Hnd.
  - assert (H : forallb (fun o => is_unique (columns o)) (d :: ds) = true).
    { apply forallb_forall. intros o Ho. apply is_unique_NoDup.
      rewrite Forall_forall in Hnd. now apply Hnd. }
    rewrite H. eexists. split; [reflexivity |]. apply unique_from_NoDup.
Qed.

(** ** Line 33: the timestamp column *)

Lemma assign_series_length (key : string) (labels : list string)
    (rs : list (list cell)) (series : list cell) :
  List.length (assign_series key labels series rs) = List.length rs.
Proof.
  revert series. induction rs as [|r rs IH]; intros series; simpl; auto.
Qed.

Lemma view_setitem_series (keys : list string) (key : string)
    (series : list cell) (df : DataFrame) :
  ~ In key keys ->
  view keys (setitem_series key series df) = view keys df.
Proof.
  intros Hkey. unfold view, setitem_series. simpl.
  generalize (rows df) as rs. intros rs. revert series.
  induction rs as [|r rs IH]; intros series; simpl; auto.
  rewrite IH. f_equal. apply map_ext_in. intros k Hk.
  apply lookup_set_where_other. intros ->. contradiction.
Qed.

(** ** The tokens of a file name *)

Lemma split_free (c : ascii) (s : string) :
  free_of c s -> PyStr.split c s = [s].
Proof.
  induction s as [|a s IH]; simpl; auto.
  intros [Hne Hfree]. apply Ascii.eqb_neq in Hne. rewrite Hne, IH; auto.
Qed.

Lemma split_app (c : ascii) (first rest : string) :
  free_of c first ->
  PyStr.split c (first ++ String c rest)%string = first :: PyStr.split c rest.
Proof.
  induction first as [|a s IH]; simpl.
  - intros _. now rewrite Ascii.eqb_refl.
  - intros [Hne Hfree]. apply Ascii.eqb_neq in Hne. rewrite Hne, IH; auto.
Qed.

Lemma split_second (c : ascii) (s b : string) :
  second_token c s b -> nth_error (PyStr.split c s) 1 = Some b.
Proof.
  intros (first & rest & -> & Hfirst & Hb & [-> | [rest' ->]]).
  - rewrite split_app by assumption. simpl.
    assert (E : (b ++ EmptyString)%string = b).
    { clear. induction b as [|a b IH]; simpl; congruence. }
    rewrite E, split_free by assumption. reflexivity.
  - rewrite split_app by assumption. simpl.
    rewrite split_app by assumption. reflexivity.
Qed.

(** ** The loop of lines 12-28 *)

Section Loop.

Variable read_csv : Path -> result DataFrame.
Variable to_datetime : list cell -> result (list cell).


Lemma loop_from (all_files : list Path) (st : loop_state) :
  fold_left (loop_body read_csv) all_files st
  = {| df_list := df_list st ++ loaded read_csv all_files;
       console := console st ++ failed read_csv all_files |}.
Proof.
  revert st. induction all_files as [|file files IH]; intros st.
  - simpl. rewrite !app_nil_r. now destruct st.
  - cbn [fold_left]. rewrite IH. unfold loop_body, loaded, failed.
    cbn [flat_map].
    destruct (try_body read_csv file) as [df|e]; cbn [df_list console];
      now rewrite <- !app_assoc.
Qed.

Lemma ingest_loaded_failed (all_files : list Path) :
  ingest read_csv all_files
  = {| df_list := loaded read_csv all_files;
       console := failed read_csv all_files |}.
Proof. unfold ingest. now rewrite loop_from. Qed.

Lemma loaded_app (fs1 fs2 : list Path) :
  loaded read_csv (fs1 ++ fs2) = loaded read_csv fs1 ++ loaded read_csv fs2.
Proof. apply flat_map_app. Qed.

Lemma failed_app (fs1 fs2 : list Path) :
  failed read_csv (fs1 ++ fs2) = failed read_csv fs1 ++ failed read_csv fs2.
Proof. apply flat_map_app. Qed.

Lemma loaded_one_ok (file : Path) (df : DataFrame) :
  try_body read_csv file = Ok df ->
  loaded read_csv [file] = [df] /\ failed read_csv [file] = [].
Proof. unfold loaded, failed. simpl. now intros ->. Qed.

Lemma loaded_one_raise (file : Path) (e : exn) :
  try_body read_csv file = Raise e ->
  loaded read_csv [file] = [] /\ failed read_csv [file] = [(file, e)].
Proof. unfold loaded, failed. simpl. now intros ->. Qed.

Lemma loaded_insert_ok (fs1 fs2 : list Path) (file : Path) (df : DataFrame) :
  try_body read_csv file = Ok df ->
  loaded read_csv (fs1 ++ file :: fs2)
  = loaded read_csv fs1 ++ df :: loaded read_csv fs2
  /\ failed read_csv (fs1 ++ file :: fs2) = failed read_csv (fs1 ++ fs2).
Proof.
  intros H. apply loaded_one_ok in H as [Hl Hf].
  change (file :: fs2) with ([file] ++ fs2).
  now rewrite !loaded_app, !failed_app, Hl, Hf.
Qed.

Lemma loaded_insert_raise (fs1 fs2 : list Path) (file : Path) (e : exn) :
  try_body read_csv file = Raise e ->
  loaded read_csv (fs1 ++ file :: fs2) = loaded read_csv (fs1 ++ fs2)
  /\ failed read_csv (fs1 ++ file :: fs2)
     = failed read_csv fs1 ++ (file, e) :: failed read_csv fs2.
Proof.
  intros H. apply loaded_one_raise in H as [Hl Hf].
  change (file :: fs2) with ([file] ++ fs2).
  now rewrite !loaded_app, !failed_app, Hl, Hf.
Qed.

(** What the [try] block does with a file, by what [read_csv] and the file
    name give. *)
Lemma try_body_read_error (file : Path) (e : exn) :
  read_csv file = Raise e -> try_body read_csv file = Raise e.
Proof. unfold try_body. now intros ->. Qed.

Lemma try_body_no_token (file : Path) (df : DataFrame) :
  read_csv file = Ok df -> free_of "_" (stem file) ->
  try_body read_csv file = Raise IndexError.
Proof.
  unfold try_body. intros -> Hfree. cbn [bind].
  now rewrite split_free.
Qed.

Lemma try_body_token (file : Path) (df : DataFrame) (b : string) :
  read_csv file = Ok df -> second_token "_" (stem file) b ->
  try_body read_csv file
  = Ok (setitem_scalar "building" (Str b) (rename_columns canonical df)).
Proof.
  unfold try_body, list_item. intros -> Htok. cbn [bind].
  now rewrite (split_second Htok).
Qed.

(** The whole function, by the frames the loop has collected. *)
Lemma load_unfold (all_files : list Path) :
  load_and_combine_data read_csv to_datetime all_files
  = (df_combined <- concat (loaded read_csv all_files) ;;
     convert_timestamp to_datetime df_combined,
     failed read_csv all_files).
Proof.
  unfold load_and_combine_data. now rewrite ingest_loaded_failed.
Qed.

Lemma convert_timestamp_view (df_combined ds : DataFrame) (keys : list string) :
  convert_timestamp to_datetime df_combined = Ok ds -> ~ In "timestamp" keys ->
  view keys ds = view keys df_combined /\ columns ds = columns df_combined.
Proof.
  unfold convert_timestamp.
  destruct (count_occ string_dec (columns df_combined) "timestamp")
    as [|[|n]]; try discriminate.
  destruct (to_datetime _) as [series|e]; [| discriminate].
  simpl. intros [= <-] Hkeys. split; [| reflexivity].
  now apply view_setitem_series.
Qed.

(** Through any labels but [timestamp], the returned frame reads as the
    collected frames one after the other, in the order of the files. *)
Lemma load_view (all_files : list Path) (ds : DataFrame) (out : list message)
    (keys : list string) :
  load_and_combine_data read_csv to_datetime all_files = (Ok ds, out) ->
  ~ In "timestamp" keys ->
  view keys ds = flat_map (view keys) (loaded read_csv all_files).
Proof.
  rewrite load_unfold. intros [= H _] Hkeys.
  destruct (concat (loaded read_csv all_files)) as [m|e] eqn:Hm;
    [| discriminate].
  simpl in H. apply convert_timestamp_view with (keys := keys) in H as [-> _];
    [| assumption].
  now apply view_concat.
Qed.

(** The function returns when some file is collected, no collected frame
    repeats a label, one of them has a [timestamp] column and
    [pd.to_datetime] accepts the column. *)
Lemma load_returns (all_files : list Path) (df : DataFrame) :
  In df (loaded read_csv all_files) -> In "timestamp" (columns df) ->
  Forall (fun o => NoDup (columns o)) (loaded read_csv all_files) ->
  (forall series, exists ts, to_datetime series = Ok ts) ->
  exists ds,
    load_and_combine_data read_csv to_datetime all_files
    = (Ok ds, failed read_csv all_files).
Proof.
  intros Hdf Hts Hnd Hparse. rewrite load_unfold.
  destruct (@concat_returns (loaded read_csv all_files)) as (m & Hm & Hndm);
    [intros E; now rewrite E in Hdf | assumption |].
  rewrite Hm. cbn [bind]. unfold convert_timestamp.
  rewrite (@count_occ_NoDup_In "timestamp" (columns m) Hndm
             (@concat_columns _ m Hm df "timestamp" Hdf Hts)).
  destruct (Hparse (column "timestamp" m)) as [ts ->]. cbn [bind]. eauto.
Qed.

Lemma load_columns (all_files : list Path) (ds : DataFrame)
    (out : list message) :
  load_and_combine_data read_csv to_datetime all_files = (Ok ds, out) ->
  forall df x,
    In df (loaded read_csv all_files) -> In x (columns df) -> In x (columns ds).
Proof.
  rewrite load_unfold. intros [= H _] df x Hdf Hx.
  destruct (concat (loaded read_csv all_files)) as [m|e] eqn:Hm;
    [| discriminate].
  simpl in H. apply convert_timestamp_view with (keys := []) in H as [_ ->];
    [| simpl; tauto].
  eapply concat_columns; eauto.
Qed.

End Loop.

(** ** Line 20: [strip] and [lower] *)

Lemma lstrip_blank (l : string) : blank l -> PyStr.lstrip l = EmptyString.
Proof.
  induction l as [|c l IH]; simpl; auto. intros [-> H]. auto.
Qed.

Lemma lstrip_app (a r : string) :
  PyStr.lstrip (a ++ r)
  = match PyStr.lstrip a with
    | EmptyString => PyStr.lstrip r
    | t => (t ++ r)%string
    end.
Proof.
  induction a as [|c a IH]; simpl; auto.
  destruct (PyStr.isspace c); auto.
Qed.

Lemma rstrip_app_blank (s r : string) :
  blank r -> PyStr.rstrip (s ++ r) = PyStr.rstrip s.
Proof.
  intros Hr. induction s as [|c s IH]; simpl.
  - induction r as [|c r IH]; simpl; auto.
    destruct Hr as [Hc Hr]. now rewrite (IH Hr), Hc.
  - now rewrite IH.
Qed.

(** Padding on either side does not change what [strip] returns. *)
Lemma strip_padded (l a r : string) :
  blank l -> blank r -> PyStr.strip (l ++ a ++ r) = PyStr.strip a.
Proof.
  intros Hl Hr. unfold PyStr.strip.
  rewrite lstrip_app, (lstrip_blank l Hl), lstrip_app.
  destruct (PyStr.lstrip a) as [|c t] eqn:E.
  - now rewrite (lstrip_blank r Hr).
  - now rewrite rstrip_app_blank.
Qed.

Lemma same_letter_isspace (a b : ascii) :
  same_letter a b -> PyStr.isspace a = PyStr.isspace b.
Proof.
  unfold same_letter, PyStr.isspace. cbv zeta.
  intros [-> | [[H ->] | [H ->]]]; auto;
    repeat match goal with
           | |- context [(?x <=? ?y)%nat] => destruct (Nat.leb_spec x y)
           end; simpl; auto; lia.
Qed.

Lemma same_letter_lower (a b : ascii) :
  same_letter a b -> PyStr.lower_char a = PyStr.lower_char b.
Proof.
  unfold same_letter, PyStr.lower_char, PyStr.isupper. cbv zeta.
  intros [-> | [[H E] | [H E]]]; auto; rewrite E;
    repeat match goal with
           | |- context [(?x <=? ?y)%nat] => destruct (Nat.leb_spec x y)
           end; simpl; try lia.
  - now rewrite <- E, ascii_nat_embedding.
  - now rewrite <- E, ascii_nat_embedding.
Qed.

Lemma same_ignoring_case_lstrip (s t : string) :
  same_ignoring_case s t ->
  same_ignoring_case (PyStr.lstrip s) (PyStr.lstrip t).
Proof.
  revert t. induction s as [|a s IH]; intros [|b t]; simpl; try tauto.
  intros [Hab Hst]. rewrite (same_letter_isspace Hab).
  destruct (PyStr.isspace b); simpl; auto.
Qed.

Lemma same_ignoring_case_rstrip (s t : string) :
  same_ignoring_case s t ->
  same_ignoring_case (PyStr.rstrip s) (PyStr.rstrip t).
Proof.
  revert t. induction s as [|a s IH]; intros [|b t]; simpl; try tauto.
  intros [Hab Hst]. specialize (IH t Hst).
  rewrite (same_letter_isspace Hab).
  destruct (PyStr.rstrip s), (PyStr.rstrip t); simpl in *; try tauto.
  destruct (PyStr.isspace b); simpl; auto.
Qed.

Lemma same_ignoring_case_lower (s t : string) :
  same_ignoring_case s t -> PyStr.lower s = PyStr.lower t.
Proof.
  revert t. induction s as [|a s IH]; intros [|b t]; simpl; try tauto.
  intros [Hab Hst]. now rewrite (same_letter_lower Hab), (IH t Hst).
Qed.

(** ** Line 23: the building column *)

Lemma setitem_scalar_rows_length (key : string) (v : cell) (df : DataFrame) :
  List.length (rows (setitem_scalar key v df)) = List.length (rows df).
Proof.
  unfold setitem_scalar. destruct (has_label key (columns df)); simpl;
    apply length_map.
Qed.

(** Every row reads [v] under [key] after [df[key] = v]. *)
Lemma view_setitem_scalar_same (key : string) (v : cell) (df : DataFrame) :
  rectangular df ->
  view [key] (setitem_scalar key v df) = map (fun _ => [v]) (rows df).
Proof.
  unfold rectangular, view, setitem_scalar. intros Hrect.
  destruct (has_label key (columns df)) eqn:E; simpl; rewrite map_map;
    apply map_ext_in; intros r Hr; f_equal;
    rewrite Forall_forall in Hrect; specialize (Hrect r Hr).
  - apply lookup_set_where_same; [now apply has_label_In | assumption].
  - apply lookup_app_new; [now apply has_label_not_In | assumption].
Qed.

(** The other labels read as before. *)
Lemma view_setitem_scalar_other (keys : list string) (key : string) (v : cell)
    (df : DataFrame) :
  rectangular df -> ~ In key keys ->
  view keys (setitem_scalar key v df) = view keys df.
Proof.
  unfold rectangular, view, setitem_scalar. intros Hrect Hkey.
  destruct (has_label key (columns df)) eqn:E; simpl; rewrite map_map;
    apply map_ext_in; intros r Hr; apply map_ext_in; intros k Hk;
    assert (Hne : k <> key) by (intros ->; contradiction).
  - now apply lookup_set_where_other.
  - rewrite Forall_forall in Hrect. now apply lookup_app_old, Hrect.
Qed.

Lemma rename_columns_rectangular (f : string -> string) (df : DataFrame) :
  rectangular df -> rectangular (rename_columns f df).
Proof.
  unfold rectangular, rename_columns. simpl. now rewrite length_map.
Qed.

Lemma setitem_scalar_columns (key : string) (v : cell) (df : DataFrame) :
  columns (setitem_scalar key v df) = columns df
  \/ columns (setitem_scalar key v df) = columns df ++ [key].
Proof.
  unfold setitem_scalar. destruct (has_label key (columns df)); simpl; auto.
Qed.

Lemma view_missing_label (key : string) (df : DataFrame) :
  ~ In key (columns df) -> view [key] df = map (fun _ => [NaN]) (rows df).
Proof.
  intros H. unfold view. apply map_ext. intros r. simpl.
  now rewrite lookup_not_In.
Qed.

Lemma map_const_length {A B C} (c : C) (l : list A) (l' : list B) :
  List.length l = List.length l' ->
  map (fun _ => c) l = map (fun _ => c) l'.
Proof.
  revert l'. induction l as [|x l IH]; intros [|y l'] H; simpl in *;
    try discriminate; auto.
  f_equal. apply IH. lia.
Qed.

Lemma flat_map_length_sum {A B} (f : A -> list B) (l : list A) :
  List.length (flat_map f l) = list_sum (map (fun x => List.length (f x)) l).
Proof.
  induction l as [|x l IH]; simpl; auto. now rewrite length_app, IH.
Qed.

(** The number of rows of a frame that reads as [objs] one after the other. *)
Lemma rows_length_sum (m : DataFrame) (objs : list DataFrame) :
  view [] m = flat_map (view []) objs ->
  List.length (rows m) = list_sum (map (fun o => List.length (rows o)) objs).
Proof.
  intros H. rewrite <- (view_length [] m), H, flat_map_length_sum.
  f_equal. apply map_ext. intros o. apply view_length.
Qed.

(** Every stem has a second token or no separator at all. *)
Lemma token_prefix (c : ascii) (s : string) :
  exists b rest, s = (b ++ rest)%string /\ free_of c b
    /\ (rest = EmptyString \/ exists rest', rest = String c rest').
Proof.
  induction s as [|a s (b & rest & -> & Hb & Hrest)].
  - exists EmptyString, EmptyString. simpl. auto.
  - destruct (ascii_dec a c) as [->|Hne].
    + exists EmptyString, (String c (b ++ rest)). simpl. eauto.
    + exists (String a b), rest. simpl. auto.
Qed.

Lemma free_of_or_second_token (c : ascii) (s : string) :
  free_of c s \/ exists b, second_token c s b.
Proof.
  induction s as [|a s IH]; simpl; auto.
  destruct (ascii_dec a c) as [->|Hne].
  - right. destruct (token_prefix c s) as (b & rest & -> & Hb & Hrest).
    exists b, EmptyString, rest. simpl. auto.
  - destruct IH as [Hfree | (b & first & rest & -> & Hf & Hb & Hrest)]; auto.
    right. exists b, (String a first), rest. simpl. auto.
Qed.

(** * The claims *)

Section Claims.

Variable read_csv : Path -> result DataFrame.
Variable to_datetime : list cell -> result (list cell).

Lemma try_body_columns (file : Path) (df batch : DataFrame) :
  read_csv file = Ok df -> try_body read_csv file = Ok batch ->
  firstn (List.length (columns df)) (columns batch)
  = map canonical (columns df).
Proof.
  unfold try_body. intros ->. cbn [bind].
  destruct (list_item _ 1) as [b|e]; [| discriminate].
  cbn [bind]. intros [= <-].
  destruct (setitem_scalar_columns "building" (Str b)
              (rename_columns canonical df)) as [-> | ->];
    cbn [rename_columns columns];
    rewrite <- (length_map canonical (columns df)).
  - apply firstn_all.
  - rewrite firstn_app, firstn_all, Nat.sub_diag. apply app_nil_r.
Qed.

(** C5.  Line 20 gives every column label the key [lower (strip label)];
    two headers that differ only in surrounding white space and in the
    case of their letters get the same key. *)
Theorem canonical_ignores_padding_and_case
    (l1 a r1 l2 b r2 : string) (file : Path) (df batch : DataFrame) :
  blank l1 -> blank r1 -> blank l2 -> blank r2 -> same_ignoring_case a b ->
  canonical (l1 ++ a ++ r1) = canonical (l2 ++ b ++ r2)
  /\ (read_csv file = Ok df -> try_body read_csv file = Ok batch ->
      firstn (List.length (columns df)) (columns batch)
      = map canonical (columns df)).
Proof.
  intros Hl1 Hr1 Hl2 Hr2 Hab. split.
  - unfold canonical. rewrite !strip_padded by assumption.
    apply same_ignoring_case_lower.
    unfold PyStr.strip.
    now apply same_ignoring_case_rstrip, same_ignoring_case_lstrip.
  - apply try_body_columns.
Qed.

(** C3.  A file that is read gets, on every one of its rows, the second of
    the tokens that the underscores separate in its stem; those rows carry
    it in the returned frame.  A file whose stem has no underscore raises
    [IndexError] inside the [try]: it is printed and left out, and the
    other files are collected as without it. *)
Theorem building_is_second_token
    (fs1 fs2 : list Path) (file : Path) (df : DataFrame) :
  read_csv file = Ok df -> rectangular df ->
  (forall b, second_token "_" (stem file) b ->
     exists batch,
       try_body read_csv file = Ok batch
       /\ view ["building"] batch = map (fun _ => [Str b]) (rows df)
       /\ forall ds out,
            load_and_combine_data read_csv to_datetime (fs1 ++ file :: fs2)
            = (Ok ds, out) ->
            view ["building"] ds
            = flat_map (view ["building"]) (df_list (ingest read_csv fs1))
              ++ map (fun _ => [Str b]) (rows df)
              ++ flat_map (view ["building"]) (df_list (ingest read_csv fs2)))
  /\ (free_of "_" (stem file) ->
      try_body read_csv file = Raise IndexError
      /\ df_list (ingest read_csv (fs1 ++ file :: fs2))
         = df_list (ingest read_csv (fs1 ++ fs2))
      /\ console (ingest read_csv (fs1 ++ file :: fs2))
         = console (ingest read_csv fs1)
           ++ (file, IndexError) :: console (ingest read_csv fs2)).
Proof.
  intros Hread Hrect. split.
  - intros b Htok.
    pose proof (try_body_token read_csv file Hread Htok) as Hbody.
    eexists. split; [exact Hbody |].
    assert (Hview : view ["building"]
                      (setitem_scalar "building" (Str b)
                         (rename_columns canonical df))
                    = map (fun _ => [Str b]) (rows df)).
    { rewrite view_setitem_scalar_same; [reflexivity |].
      now apply rename_columns_rectangular. }
    split; [exact Hview |]. intros ds out Hload.
    rewrite (@load_view _ _ _ _ _ ["building"] Hload)
      by (simpl; intros [H|[]]; discriminate).
    destruct (loaded_insert_ok read_csv fs1 fs2 file Hbody) as [-> _].
    rewrite flat_map_app. cbn [flat_map]. rewrite Hview.
    now rewrite !ingest_loaded_failed.
  - intros Hfree.
    pose proof (try_body_no_token read_csv file Hread Hfree) as Hbody.
    split; [exact Hbody |].
    destruct (loaded_insert_raise read_csv fs1 fs2 file Hbody) as [Hl Hf].
    rewrite !ingest_loaded_failed. cbn [df_list console]. auto.
Qed.

(** C4.  [pd.concat] returns on a non-empty list of frames without repeated
    labels.  What it returns reads, through any labels and cell by cell for
    what the merge keeps of a cell, as the collected frames one after the
    other in the order of the files, and has as many rows as they have
    together; line 33 changes neither, so the same holds of the returned
    frame through any labels but [timestamp]. *)
Theorem merge_keeps_discovery_order (all_files : list Path) :
  (df_list (ingest read_csv all_files) <> [] ->
   Forall (fun df => NoDup (columns df))
          (df_list (ingest read_csv all_files)) ->
   exists m, concat (df_list (ingest read_csv all_files)) = Ok m)
  /\ (forall m,
        concat (df_list (ingest read_csv all_files)) = Ok m ->
        (forall keys,
           kept_view keys m
           = flat_map (kept_view keys) (loaded read_csv all_files))
        /\ List.length (rows m)
           = list_sum (map (fun df => List.length (rows df))
                           (loaded read_csv all_files)))
  /\ (forall ds out,
        load_and_combine_data read_csv to_datetime all_files = (Ok ds, out) ->
        (forall keys, ~ In "timestamp" keys ->
           kept_view keys ds
           = flat_map (kept_view keys) (loaded read_csv all_files))
        /\ List.length (rows ds)
           = list_sum (map (fun df => List.length (rows df))
                           (loaded read_csv all_files))).
Proof.
  rewrite ingest_loaded_failed. cbn [df_list]. repeat split.
  - intros Hne Hnd. destruct (concat_returns Hne Hnd) as (m & Hm & _). eauto.
  - intros keys. apply kept_view_flat_map. now apply view_concat.
  - apply rows_length_sum. now apply view_concat.
  - intros keys Hkeys. apply kept_view_flat_map. eapply load_view; eauto.
  - apply rows_length_sum. eapply load_view; eauto.
Qed.

(** C1.  An exception raised inside the [try] of lines 15-25, by [read_csv]
    or by the index into the tokens of the stem, is caught: one line is
    printed for the file, none of its rows is collected, and the other files
    are collected, and the function ends, as without that file. *)
Theorem caught_error_leaves_other_files
    (fs1 fs2 : list Path) (file : Path) (e : exn) :
  read_csv file = Raise e
  \/ (exists df, read_csv file = Ok df /\ free_of "_" (stem file)
                 /\ e = IndexError) ->
  df_list (ingest read_csv (fs1 ++ file :: fs2))
  = df_list (ingest read_csv (fs1 ++ fs2))
  /\ console (ingest read_csv (fs1 ++ file :: fs2))
     = console (ingest read_csv fs1)
       ++ (file, e) :: console (ingest read_csv fs2)
  /\ fst (load_and_combine_data read_csv to_datetime (fs1 ++ file :: fs2))
     = fst (load_and_combine_data read_csv to_datetime (fs1 ++ fs2)).
Proof.
  intros H.
  assert (Hbody : try_body read_csv file = Raise e).
  { destruct H as [H | (df & Hread & Hfree & ->)].
    - now apply try_body_read_error.
    - now apply try_body_no_token with df. }
  destruct (loaded_insert_raise read_csv fs1 fs2 file Hbody) as [Hl Hf].
  rewrite !load_unfold, !ingest_loaded_failed. cbn [df_list console fst].
  rewrite Hl, Hf. auto.
Qed.

(** C2.  When every file raises inside the [try], the list handed to
    [pd.concat] is empty and the function raises [ValueError], after one
    printed line per file. *)
Theorem no_frame_raises (all_files : list Path) :
  (forall file, In file all_files ->
                exists e, try_body read_csv file = Raise e) ->
  load_and_combine_data read_csv to_datetime all_files
  = (Raise (ValueError "No objects to concatenate"),
     console (ingest read_csv all_files))
  /\ map fst (console (ingest read_csv all_files)) = all_files.
Proof.
  intros Hall. rewrite load_unfold, ingest_loaded_failed. cbn [console].
  assert (H : loaded read_csv all_files = []
              /\ map fst (failed read_csv all_files) = all_files).
  { induction all_files as [|file files IH]; [now split |].
    destruct (Hall file (or_introl eq_refl)) as [e He].
    destruct IH as [IHl IHf]; [intros f Hf; apply Hall; now right |].
    change (file :: files) with ([file] ++ files).
    rewrite loaded_app, failed_app, map_app, IHl.
    destruct (loaded_one_raise read_csv file He) as [-> ->].
    split; [reflexivity | simpl; f_equal; exact IHf]. }
  destruct H as [-> Hfst]. now split.
Qed.

(** C7.  When [pd.to_datetime] raises on the timestamp column of the
    concatenated frame, the function raises the same exception: it returns
    no frame, and nothing is printed beyond the lines of the loop. *)
Theorem unparseable_timestamp_aborts
    (all_files : list Path) (df_combined : DataFrame) (e : exn) :
  concat (df_list (ingest read_csv all_files)) = Ok df_combined ->
  count_occ string_dec (columns df_combined) "timestamp" = 1 ->
  to_datetime (column "timestamp" df_combined) = Raise e ->
  load_and_combine_data read_csv to_datetime all_files
  = (Raise e, console (ingest read_csv all_files)).
Proof.
  intros Hconcat Hcount Hraise.
  unfold load_and_combine_data. rewrite Hconcat. cbn [bind].
  unfold convert_timestamp. now rewrite Hcount, Hraise.
Qed.

(** C6.  A file whose canonical header has no [timestamp] is collected like
    any other: nothing is printed for it, [pd.concat] fills its rows with
    [NaN] under [timestamp], and all its rows are in the returned frame,
    cell by cell for what the merge keeps of a cell. *)
Theorem missing_timestamp_file_is_kept
    (fs1 fs2 : list Path) (file : Path) (df : DataFrame) (b : string) :
  read_csv file = Ok df ->
  ~ In "timestamp" (map canonical (columns df)) ->
  second_token "_" (stem file) b ->
  exists batch,
    try_body read_csv file = Ok batch
    /\ List.length (rows batch) = List.length (rows df)
    /\ console (ingest read_csv (fs1 ++ file :: fs2))
       = console (ingest read_csv (fs1 ++ fs2))
    /\ (forall m,
          concat (df_list (ingest read_csv (fs1 ++ file :: fs2))) = Ok m ->
          kept_view ["timestamp"] m
          = flat_map (kept_view ["timestamp"])
                     (df_list (ingest read_csv fs1))
            ++ map (fun _ => [Missing]) (rows df)
            ++ flat_map (kept_view ["timestamp"])
                        (df_list (ingest read_csv fs2)))
    /\ (forall ds out keys,
          load_and_combine_data read_csv to_datetime (fs1 ++ file :: fs2)
          = (Ok ds, out) ->
          ~ In "timestamp" keys ->
          kept_view keys ds
          = flat_map (kept_view keys) (df_list (ingest read_csv fs1))
            ++ kept_view keys batch
            ++ flat_map (kept_view keys) (df_list (ingest read_csv fs2))).
Proof.
  intros Hread Hts Htok.
  pose proof (try_body_token read_csv file Hread Htok) as Hbody.
  set (batch := setitem_scalar "building" (Str b)
                  (rename_columns canonical df)) in *.
  destruct (loaded_insert_ok read_csv fs1 fs2 file Hbody) as [Hl Hf].
  exists batch. rewrite !ingest_loaded_failed. cbn [df_list console].
  split; [exact Hbody |]. split; [| split; [exact Hf | split]].
  - unfold batch. now rewrite setitem_scalar_rows_length.
  - intros m Hm.
    assert (Hfill : view ["timestamp"] batch
                    = map (fun _ => [NaN]) (rows df)).
    { rewrite view_missing_label.
      + apply map_const_length. unfold batch.
        now rewrite setitem_scalar_rows_length.
      + unfold batch.
        destruct (setitem_scalar_columns "building" (Str b)
                    (rename_columns canonical df)) as [-> | ->];
          cbn [rename_columns columns]; [assumption |].
        rewrite in_app_iff.
        intros [H | [H | []]]; [contradiction | discriminate]. }
    change (kept_view ["timestamp"] m)
      with (map (map keeps) (view ["timestamp"] m)).
    rewrite (view_concat ["timestamp"] _ Hm), Hl.
    rewrite flat_map_app. cbn [flat_map].
    rewrite !map_app, !kept_flat_map, Hfill, map_map. reflexivity.
  - intros ds out keys Hload Hkeys.
    change (kept_view keys ds) with (map (map keeps) (view keys ds)).
    rewrite (@load_view _ _ _ _ _ keys Hload Hkeys), Hl.
    rewrite flat_map_app. cbn [flat_map].
    rewrite !map_app, !kept_flat_map. reflexivity.
Qed.

(** C8.  A file with a header and no data row is read to a frame without
    rows and collected like any other: nothing is printed for it, and the
    returned frame has the rows of the other files, cell by cell for what
    the merge keeps of a cell, and no more. *)
Theorem header_only_file_is_silent
    (fs1 fs2 : list Path) (file : Path) (header : list string) (b : string) :
  read_csv file = Ok {| columns := header; rows := [] |} ->
  second_token "_" (stem file) b ->
  exists batch,
    try_body read_csv file = Ok batch
    /\ rows batch = []
    /\ df_list (ingest read_csv (fs1 ++ file :: fs2))
       = df_list (ingest read_csv fs1) ++ batch :: df_list (ingest read_csv fs2)
    /\ console (ingest read_csv (fs1 ++ file :: fs2))
       = console (ingest read_csv (fs1 ++ fs2))
    /\ (forall ds out,
          load_and_combine_data read_csv to_datetime (fs1 ++ file :: fs2)
          = (Ok ds, out) ->
          (forall keys, ~ In "timestamp" keys ->
             kept_view keys ds
             = flat_map (kept_view keys)
                        (df_list (ingest read_csv (fs1 ++ fs2))))
          /\ List.length (rows ds)
             = list_sum (map (fun df => List.length (rows df))
                             (df_list (ingest read_csv (fs1 ++ fs2))))).
Proof.
  intros Hread Htok.
  pose proof (try_body_token read_csv file Hread Htok) as Hbody.
  set (batch := setitem_scalar "building" (Str b)
                  (rename_columns canonical
                     {| columns := header; rows := [] |})) in *.
  assert (Hrows : rows batch = []).
  { unfold batch, setitem_scalar.
    now destruct (has_label _ _). }
  destruct (loaded_insert_ok read_csv fs1 fs2 file Hbody) as [Hl Hf].
  exists batch. rewrite !ingest_loaded_failed. cbn [df_list console].
  do 4 (split; [assumption |]).
  intros ds out Hload.
  assert (Hview : forall keys, ~ In "timestamp" keys ->
            view keys ds
            = flat_map (view keys) (loaded read_csv (fs1 ++ fs2))).
  { intros keys Hkeys.
    rewrite (@load_view _ _ _ _ _ keys Hload Hkeys), Hl.
    rewrite loaded_app, !flat_map_app. cbn [flat_map].
    unfold view at 2. now rewrite Hrows. }
  split; [intros keys Hkeys; now apply kept_view_flat_map, Hview |].
  apply rows_length_sum, Hview, in_nil.
Qed.

(** C9.  [glob] does not sort.  Two enumerations of one folder print the
    same lines and collect the same frames up to order, and the frames they
    return have, through any labels but [timestamp], the same rows up to
    order. *)
Theorem output_follows_enumeration_order
    (entries fs fs' : list Path) :
  glob_csv entries fs -> glob_csv entries fs' ->
  Permutation (console (ingest read_csv fs)) (console (ingest read_csv fs'))
  /\ Permutation (df_list (ingest read_csv fs)) (df_list (ingest read_csv fs'))
  /\ (forall ds ds' out out' keys,
        load_and_combine_data read_csv to_datetime fs = (Ok ds, out) ->
        load_and_combine_data read_csv to_datetime fs' = (Ok ds', out') ->
        ~ In "timestamp" keys ->
        Permutation (view keys ds) (view keys ds')
        /\ List.length (rows ds) = List.length (rows ds')).
Proof.
  unfold glob_csv. intros Hfs Hfs'.
  assert (Hperm : Permutation fs fs').
  { eapply Permutation_trans; [apply Permutation_sym |]; eassumption. }
  rewrite !ingest_loaded_failed. cbn [df_list console].
  assert (Hloaded : Permutation (loaded read_csv fs) (loaded read_csv fs')).
  { now apply Permutation_flat_map. }
  split; [now apply Permutation_flat_map |].
  split; [exact Hloaded |].
  intros ds ds' out out' keys Hload Hload' Hkeys. split.
  - rewrite (@load_view _ _ _ _ _ keys Hload Hkeys),
            (@load_view _ _ _ _ _ keys Hload' Hkeys).
    now apply Permutation_flat_map.
  - rewrite <- (view_length [] ds), <- (view_length [] ds').
    apply Permutation_length.
    rewrite (@load_view _ _ _ _ _ [] Hload (@in_nil _ _)),
            (@load_view _ _ _ _ _ [] Hload' (@in_nil _ _)).
    now apply Permutation_flat_map.
Qed.

(** C10.  Through any labels but [timestamp] and [building], the rows of a
    collected file read in the returned frame as they read in the file under
    its canonical header, cell by cell for what the merge keeps of a cell:
    text and missing values as they are, a number as a number.  Every
    canonical label of the file is a label of the returned frame. *)
Theorem other_columns_pass_through
    (fs1 fs2 : list Path) (file : Path) (df : DataFrame) (b : string)
    (ds : DataFrame) (out : list message) :
  read_csv file = Ok df -> rectangular df ->
  second_token "_" (stem file) b ->
  load_and_combine_data read_csv to_datetime (fs1 ++ file :: fs2)
  = (Ok ds, out) ->
  (forall k, In k (map canonical (columns df)) -> In k (columns ds))
  /\ (forall keys,
        ~ In "timestamp" keys -> ~ In "building" keys ->
        kept_view keys ds
        = flat_map (kept_view keys) (df_list (ingest read_csv fs1))
          ++ kept_view keys (rename_columns canonical df)
          ++ flat_map (kept_view keys) (df_list (ingest read_csv fs2))).
Proof.
  intros Hread Hrect Htok Hload.
  pose proof (try_body_token read_csv file Hread Htok) as Hbody.
  destruct (loaded_insert_ok read_csv fs1 fs2 file Hbody) as [Hl Hf].
  split.
  - intros k Hk. eapply load_columns; [exact Hload | |].
    + rewrite Hl. apply in_elt.
    + destruct (setitem_scalar_columns "building" (Str b)
                  (rename_columns canonical df)) as [-> | ->];
        cbn [rename_columns columns]; [| apply in_or_app]; auto.
  - intros keys Hts Hb.
    change (kept_view keys ds) with (map (map keeps) (view keys ds)).
    rewrite (@load_view _ _ _ _ _ keys Hload Hts), Hl, !ingest_loaded_failed.
    cbn [df_list]. rewrite flat_map_app. cbn [flat_map].
    rewrite view_setitem_scalar_other;
      [now rewrite !map_app, !kept_flat_map
      | now apply rename_columns_rectangular | assumption].
Qed.

End Claims.

(** * The claims on the folder of the examples *)

Lemma campus_rectangular (file : Path) (df : DataFrame) :
  read_from campus file = Ok df -> rectangular df.
Proof.
  unfold campus. simpl.
  repeat match goal with
         | |- (if ?c then _ else _) = _ -> _ => destruct c
         end;
    intros [= <-]; unfold rectangular; simpl; repeat constructor.
Qed.

Lemma usage_B_second_token : second_token "_" "usage_B_2024" "B".
Proof.
  exists "usage", "_2024". simpl.
  repeat split; try discriminate. right. now exists "2024".
Qed.

Lemma elec_second_token (b month : string) :
  free_of "_" b -> second_token "_" ("elec_" ++ b ++ String "_" month) b.
Proof.
  intros Hb. exists "elec", (String "_" month). simpl.
  repeat split; try discriminate; eauto.
Qed.

Lemma free_of_letter (c : ascii) :
  c <> "_"%char -> free_of "_" (String c EmptyString).
Proof. intros H. simpl. auto. Qed.

(** ** C1 *)

(** C1, refuted as stated: elec_E_may.csv has no timestamp column, yet the
    only line printed is that of readings.csv, and the row of elec_E_may.csv
    is in the returned frame. *)
Lemma missing_timestamp_is_not_caught :
  run ["elec_A_jan.csv"; "readings.csv"; "elec_E_may.csv"]
  = (Ok frame_A_E, [("readings.csv", IndexError)]).
Proof. vm_compute. reflexivity. Qed.

(** The malformed broken_F_jun.csv between two good files, and readings.csv
    before a good file. *)
Lemma caught_error_leaves_other_files_witness :
  (collected (["elec_A_jan.csv"] ++ "broken_F_jun.csv" :: ["elec_D_apr.csv"])
   = collected (["elec_A_jan.csv"] ++ ["elec_D_apr.csv"])
   /\ printed (["elec_A_jan.csv"] ++ "broken_F_jun.csv" :: ["elec_D_apr.csv"])
      = printed ["elec_A_jan.csv"]
        ++ ("broken_F_jun.csv", ParserError) :: printed ["elec_D_apr.csv"]
   /\ fst (run (["elec_A_jan.csv"] ++ "broken_F_jun.csv" :: ["elec_D_apr.csv"]))
      = fst (run (["elec_A_jan.csv"] ++ ["elec_D_apr.csv"])))
  /\ fst (run ([] ++ "readings.csv" :: ["elec_A_jan.csv"]))
     = fst (run ([] ++ ["elec_A_jan.csv"])).
Proof.
  split.
  - apply (@caught_error_leaves_other_files
             (read_from campus) to_datetime_texts
             ["elec_A_jan.csv"] ["elec_D_apr.csv"]
             "broken_F_jun.csv" ParserError).
    left. reflexivity.
  - apply (@caught_error_leaves_other_files
             (read_from campus) to_datetime_texts
             [] ["elec_A_jan.csv"] "readings.csv" IndexError).
    right. exists elec_A. repeat split; discriminate.
Defined.

(** ** C2 *)

(** A folder whose two files both fail. *)
Lemma no_frame_raises_witness :
  run ["readings.csv"; "broken_F_jun.csv"]
  = (Raise (ValueError "No objects to concatenate"),
     printed ["readings.csv"; "broken_F_jun.csv"])
  /\ map fst (printed ["readings.csv"; "broken_F_jun.csv"])
     = ["readings.csv"; "broken_F_jun.csv"].
Proof.
  apply (@no_frame_raises (read_from campus) to_datetime_texts).
  intros file [<- | [<- | []]]; eexists; vm_compute; reflexivity.
Defined.

(** A folder without CSV files. *)
Example empty_folder_raises :
  run [] = (Raise (ValueError "No objects to concatenate"), []).
Proof. reflexivity. Qed.

(** ** C3 *)

(** elec_D_apr.csv after elec_A_jan.csv, and readings.csv after it. *)
Lemma building_is_second_token_witness :
  (exists batch,
     try_body (read_from campus) "elec_D_apr.csv" = Ok batch
     /\ view ["building"] batch = [[Str "D"]]
     /\ view ["building"] frame_A_D
        = flat_map (view ["building"]) (collected ["elec_A_jan.csv"])
          ++ [[Str "D"]]
          ++ flat_map (view ["building"]) (collected []))
  /\ (try_body (read_from campus) "readings.csv" = Raise IndexError
      /\ collected (["elec_A_jan.csv"] ++ "readings.csv" :: [])
         = collected (["elec_A_jan.csv"] ++ [])
      /\ printed (["elec_A_jan.csv"] ++ "readings.csv" :: [])
         = printed ["elec_A_jan.csv"]
           ++ ("readings.csv", IndexError) :: printed []).
Proof.
  split.
  - destruct (@building_is_second_token
                (read_from campus) to_datetime_texts
                ["elec_A_jan.csv"] [] "elec_D_apr.csv" elec_D_own_building
                eq_refl (@campus_rectangular "elec_D_apr.csv" _ eq_refl))
      as [Htok _].
    assert (Hfree : free_of "_" "D") by (apply free_of_letter; discriminate).
    destruct (Htok "D" (@elec_second_token "D" "apr" Hfree))
      as (batch & Hbody & Hview & Hload).
    exists batch. split; [exact Hbody |]. split; [exact Hview |].
    apply (Hload _ []). vm_compute. reflexivity.
  - destruct (@building_is_second_token
                (read_from campus) to_datetime_texts
                ["elec_A_jan.csv"] [] "readings.csv" elec_A
                eq_refl (@campus_rectangular "readings.csv" _ eq_refl))
      as [_ Hfree].
    apply Hfree. simpl. repeat split; discriminate.
Defined.

(** ** C4 *)

(** Three files, of which readings.csv is left out. *)
Lemma merge_keeps_discovery_order_witness :
  (exists m,
     concat (collected ["elec_A_jan.csv"; "readings.csv"; "elec_E_may.csv"])
     = Ok m
     /\ kept_view ["kwh"; "building"] m
        = [ [Number; Text "A"]; [Number; Text "A"]; [Number; Text "E"] ]
     /\ List.length (rows m) = 3)
  /\ kept_view ["kwh"; "building"] frame_A_E
     = [ [Number; Text "A"]; [Number; Text "A"]; [Number; Text "E"] ]
  /\ List.length (rows frame_A_E) = 3.
Proof.
  destruct (@merge_keeps_discovery_order
              (read_from campus) to_datetime_texts
              ["elec_A_jan.csv"; "readings.csv"; "elec_E_may.csv"])
    as (Hreturns & Hconcat & Hload).
  split.
  - destruct Hreturns as [m Hm].
    + vm_compute. discriminate.
    + vm_compute. repeat constructor; simpl; intuition discriminate.
    + exists m. destruct (Hconcat m Hm) as [Hview Hlen].
      split; [exact Hm |]. split; [apply Hview | exact Hlen].
  - destruct (Hload frame_A_E [("readings.csv", IndexError)])
      as [Hview Hlen]; [vm_compute; reflexivity |].
    split; [| exact Hlen].
    apply Hview. simpl. intuition discriminate.
Defined.

(** ** C5 *)

(** The headers of the specification, and the header of elec_A_jan.csv. *)
Lemma canonical_ignores_padding_and_case_witness :
  canonical (" " ++ "Timestamp" ++ " ") = canonical ("" ++ "TIMESTAMP" ++ "")
  /\ firstn 2 (columns (setitem_scalar "building" (Str "A")
                          (rename_columns canonical elec_A)))
     = map canonical [" Timestamp "; "KWH"].
Proof.
  assert (Hblank : blank " ") by (simpl; auto).
  assert (Hsame : same_ignoring_case "Timestamp" "TIMESTAMP").
  { simpl. unfold same_letter.
    repeat split; try (left; reflexivity); right; right; vm_compute; lia. }
  destruct (@canonical_ignores_padding_and_case
              (read_from campus)
              " " "Timestamp" " " "" "TIMESTAMP" "" "elec_A_jan.csv" elec_A
              (setitem_scalar "building" (Str "A")
                 (rename_columns canonical elec_A))
              Hblank Hblank I I Hsame) as [Hkey Hcols].
  split; [exact Hkey |]. apply Hcols; reflexivity.
Defined.

(** ** C6 *)

(** C6, refuted as stated: elec_E_may.csv has no timestamp column; nothing
    is printed, and its row is in the returned frame with [NaT]. *)
Lemma missing_timestamp_rows_are_returned :
  run ["elec_A_jan.csv"; "elec_E_may.csv"] = (Ok frame_A_E, []).
Proof. vm_compute. reflexivity. Qed.

(** elec_E_may.csv after elec_A_jan.csv. *)
Lemma missing_timestamp_file_is_kept_witness :
  exists batch,
    try_body (read_from campus) "elec_E_may.csv" = Ok batch
    /\ List.length (rows batch) = 1
    /\ printed (["elec_A_jan.csv"] ++ "elec_E_may.csv" :: [])
       = printed (["elec_A_jan.csv"] ++ [])
    /\ (forall m,
          concat (collected (["elec_A_jan.csv"] ++ "elec_E_may.csv" :: []))
          = Ok m ->
          kept_view ["timestamp"] m
          = [ [Text "2024-01-01 00:00:00"]; [Text "2024-01-01 01:00:00"];
              [Missing] ])
    /\ kept_view ["kwh"; "meter"] frame_A_E
       = [ [Number; Missing]; [Number; Missing]; [Number; Text "m-2"] ].
Proof.
  assert (Hfree : free_of "_" "E") by (apply free_of_letter; discriminate).
  destruct (@missing_timestamp_file_is_kept
              (read_from campus) to_datetime_texts
              ["elec_A_jan.csv"] [] "elec_E_may.csv" elec_E_no_timestamp "E"
              eq_refl)
    as (batch & Hbody & Hlen & Hconsole & Hconcat & Hload).
  - simpl. intuition discriminate.
  - exact (@elec_second_token "E" "may" Hfree).
  - exists batch. split; [exact Hbody |]. split; [exact Hlen |].
    split; [exact Hconsole |]. split.
    + intros m Hm. apply (Hconcat m Hm).
    + assert (Hkeys : ~ In "timestamp" ["kwh"; "meter"])
        by (simpl; intuition discriminate).
      rewrite (Hload frame_A_E [] ["kwh"; "meter"]);
        [| vm_compute; reflexivity | exact Hkeys].
      injection Hbody as <-. vm_compute. reflexivity.
Defined.

(** ** C7 *)

(** C7, refuted as stated: one row of elec_B_feb.csv reads 13/45/2024; the
    function raises, returns no frame, and has printed nothing. *)
Lemma unparseable_timestamp_raises :
  run ["elec_A_jan.csv"; "elec_B_feb.csv"]
  = (Raise (ValueError "Unknown datetime string format"), []).
Proof. vm_compute. reflexivity. Qed.

(** The same two files. *)
Lemma unparseable_timestamp_aborts_witness :
  run ["elec_A_jan.csv"; "elec_B_feb.csv"]
  = (Raise (ValueError "Unknown datetime string format"),
     printed ["elec_A_jan.csv"; "elec_B_feb.csv"]).
Proof.
  apply (@unparseable_timestamp_aborts
           (read_from campus) to_datetime_texts
           ["elec_A_jan.csv"; "elec_B_feb.csv"]
           (mkFrame ["timestamp"; "kwh"; "building"]
              [ [Str "2024-01-01 00:00:00"; Num "12.5"; Str "A"];
                [Str "2024-01-01 01:00:00"; Num "11.0"; Str "A"];
                [Str "13/45/2024"; Num "7.0"; Str "B"] ])
           (ValueError "Unknown datetime string format"));
    vm_compute; reflexivity.
Defined.

(** ** C8 *)

(** C8, refuted as stated: elec_C_mar.csv has a header and no data row; the
    console stays empty, so no advisory is recorded for it. *)
Lemma header_only_file_prints_nothing :
  run ["elec_A_jan.csv"; "elec_C_mar.csv"] = (Ok frame_A, []).
Proof. vm_compute. reflexivity. Qed.

(** elec_C_mar.csv after elec_A_jan.csv. *)
Lemma header_only_file_is_silent_witness :
  exists batch,
    try_body (read_from campus) "elec_C_mar.csv" = Ok batch
    /\ rows batch = []
    /\ collected (["elec_A_jan.csv"] ++ "elec_C_mar.csv" :: [])
       = collected ["elec_A_jan.csv"] ++ batch :: collected []
    /\ printed (["elec_A_jan.csv"] ++ "elec_C_mar.csv" :: [])
       = printed (["elec_A_jan.csv"] ++ [])
    /\ kept_view ["kwh"] frame_A = [ [Number]; [Number] ]
    /\ List.length (rows frame_A) = 2.
Proof.
  assert (Hfree : free_of "_" "C") by (apply free_of_letter; discriminate).
  destruct (@header_only_file_is_silent
              (read_from campus) to_datetime_texts
              ["elec_A_jan.csv"] [] "elec_C_mar.csv" ["timestamp"; "kwh"] "C"
              eq_refl (@elec_second_token "C" "mar" Hfree))
    as (batch & Hbody & Hrows & Hlist & Hconsole & Hload).
  exists batch. split; [exact Hbody |]. split; [exact Hrows |].
  split; [exact Hlist |]. split; [exact Hconsole |].
  destruct (Hload frame_A []) as [Hview Hlen]; [vm_compute; reflexivity |].
  split; [| exact Hlen].
  apply (Hview ["kwh"]). simpl. intuition discriminate.
Defined.

(** ** C9 *)

(** C9, refuted as stated: the folder holds elec_A_jan.csv and
    elec_D_apr.csv; [glob] may yield them in either order, and the two
    orders return different frames. *)
Lemma enumeration_order_changes_the_frame :
  glob_csv ["elec_A_jan.csv"; "notes.txt"; "elec_D_apr.csv"]
           ["elec_A_jan.csv"; "elec_D_apr.csv"]
  /\ glob_csv ["elec_A_jan.csv"; "notes.txt"; "elec_D_apr.csv"]
              ["elec_D_apr.csv"; "elec_A_jan.csv"]
  /\ run ["elec_A_jan.csv"; "elec_D_apr.csv"] = (Ok frame_A_D, [])
  /\ run ["elec_D_apr.csv"; "elec_A_jan.csv"] = (Ok frame_D_A, [])
  /\ frame_A_D <> frame_D_A.
Proof.
  unfold glob_csv. simpl. split; [apply Permutation_refl |].
  split; [apply perm_swap |].
  repeat split; try (vm_compute; reflexivity). discriminate.
Qed.

(** The same folder in its two orders. *)
Lemma output_follows_enumeration_order_witness :
  Permutation (printed ["elec_D_apr.csv"; "elec_A_jan.csv"])
              (printed ["elec_A_jan.csv"; "elec_D_apr.csv"])
  /\ Permutation (collected ["elec_D_apr.csv"; "elec_A_jan.csv"])
                 (collected ["elec_A_jan.csv"; "elec_D_apr.csv"])
  /\ Permutation (view ["kwh"; "building"] frame_D_A)
                 (view ["kwh"; "building"] frame_A_D)
  /\ List.length (rows frame_D_A) = List.length (rows frame_A_D).
Proof.
  destruct (@output_follows_enumeration_order
              (read_from campus) to_datetime_texts
              ["elec_A_jan.csv"; "notes.txt"; "elec_D_apr.csv"]
              ["elec_D_apr.csv"; "elec_A_jan.csv"]
              ["elec_A_jan.csv"; "elec_D_apr.csv"])
    as (Hprinted & Hcollected & Hload).
  - unfold glob_csv. simpl. apply perm_swap.
  - unfold glob_csv. simpl. apply Permutation_refl.
  - split; [exact Hprinted |]. split; [exact Hcollected |].
    apply (Hload frame_D_A frame_A_D [] [] ["kwh"; "building"]).
    + vm_compute. reflexivity.
    + vm_compute. reflexivity.
    + simpl. intuition discriminate.
Defined.

(** ** C10 *)

(** C10, refuted as stated: elec_D_apr.csv has a column Building that reads
    Library; in the returned frame that column reads D. *)
Lemma own_building_column_is_overwritten :
  view ["building"] (rename_columns canonical elec_D_own_building)
  = [[Str "Library"]]
  /\ run ["elec_D_apr.csv"] = (Ok frame_D, [])
  /\ view ["building"] frame_D = [[Str "D"]].
Proof. repeat split; vm_compute; reflexivity. Qed.

(** elec_E_may.csv after elec_A_jan.csv, with its column meter. *)
Lemma other_columns_pass_through_witness :
  (forall k, In k (map canonical (columns elec_E_no_timestamp)) ->
             In k (columns frame_A_E))
  /\ (forall keys,
        ~ In "timestamp" keys -> ~ In "building" keys ->
        kept_view keys frame_A_E
        = flat_map (kept_view keys) (collected ["elec_A_jan.csv"])
          ++ kept_view keys (rename_columns canonical elec_E_no_timestamp)
          ++ flat_map (kept_view keys) (collected [])).
Proof.
  assert (Hfree : free_of "_" "E") by (apply free_of_letter; discriminate).
  assert (Hrun : load_and_combine_data (read_from campus) to_datetime_texts
                   (["elec_A_jan.csv"] ++ "elec_E_may.csv" :: [])
                 = (Ok frame_A_E, [])) by (vm_compute; reflexivity).
  exact (@other_columns_pass_through
           (read_from campus) to_datetime_texts
           ["elec_A_jan.csv"] [] "elec_E_may.csv" elec_E_no_timestamp "E"
           frame_A_E []
           eq_refl (@campus_rectangular "elec_E_may.csv" _ eq_refl)
           (@elec_second_token "E" "may" Hfree) Hrun).
Defined.

(** * More of the pipeline *)

(** ** The shape of the frames *)

Lemma set_where_length (key : string) (v : cell) (labels : list string)
    (row : list cell) :
  List.length (set_where key v labels row) = List.length row.
Proof.
  revert row. induction labels as [|l ls IH]; intros [|c cs]; simpl; auto.
Qed.

Lemma setitem_scalar_rectangular (key : string) (v : cell) (df : DataFrame) :
  rectangular df -> rectangular (setitem_scalar key v df).
Proof.
  unfold rectangular, setitem_scalar. intros H.
  destruct (has_label key (columns df)); simpl; apply Forall_map;
    (eapply Forall_impl; [| exact H]); intros r Hr; simpl.
  - now rewrite set_where_length.
  - rewrite !length_app, Hr. reflexivity.
Qed.

Lemma setitem_series_rectangular (key : string) (series : list cell)
    (df : DataFrame) :
  rectangular df -> rectangular (setitem_series key series df).
Proof.
  unfold rectangular, setitem_series. simpl.
  generalize (rows df) as rs. intros rs H. revert series.
  induction H as [|r rs Hr _ IH]; intros series; simpl; constructor; auto.
  now rewrite set_where_length.
Qed.

Lemma concat_rectangular (objs : list DataFrame) (m : DataFrame) :
  Forall rectangular objs -> concat objs = Ok m -> rectangular m.
Proof.
  unfold concat. destruct objs as [|d ds]; [discriminate |].
  intros Hrect. destruct (forallb _ ds) eqn:Hsame.
  - intros [= <-]. unfold rectangular. cbn [columns rows].
    change (rows d ++ flat_map rows ds) with (flat_map rows (d :: ds)).
    rewrite Forall_flat_map.
    rewrite Forall_forall in Hrect |- *. intros o Ho.
    assert (E : columns o = columns d).
    { destruct Ho as [<-|Ho]; [reflexivity |].
      rewrite forallb_forall in Hsame. specialize (Hsame o Ho).
      now destruct (list_eq_dec string_dec (columns o) (columns d)). }
    rewrite <- E. exact (Hrect o Ho).
  - destruct (forallb _ (d :: ds)); [| discriminate].
    intros [= <-]. unfold rectangular. cbn [columns rows].
    set (new_labels := unique (flat_map columns (d :: ds))).
    change (Forall (fun r => List.length r = List.length new_labels)
              (flat_map (fun o => map (reindex new_labels (columns o)) (rows o))
                        (d :: ds))).
    rewrite Forall_flat_map. apply Forall_forall. intros o _.
    apply Forall_map, Forall_forall. intros r _.
    unfold reindex. apply length_map.
Qed.

(** [df[key]] after [df[key] = series] is [series], when the series has
    one value per row. *)
Lemma column_setitem_series (key : string) (series : list cell)
    (df : DataFrame) :
  rectangular df -> In key (columns df) ->
  List.length series = List.length (rows df) ->
  column key (setitem_series key series df) = series.
Proof.
  unfold rectangular, column, setitem_series. simpl.
  generalize (rows df) as rs. intros rs Hrect Hkey. revert series.
  induction Hrect as [|r rs Hr _ IH]; intros [|c cs] Hlen; simpl in *;
    try discriminate; auto.
  rewrite IH by lia. now rewrite lookup_set_where_same.
Qed.

(** A label of the concatenation is a label of one of the frames. *)
Lemma concat_columns_from (objs : list DataFrame) (m : DataFrame) (x : string) :
  concat objs = Ok m -> In x (columns m) ->
  exists o, In o objs /\ In x (columns o).
Proof.
  unfold concat. destruct objs as [|d ds]; [discriminate |].
  destruct (forallb _ ds).
  - intros [= <-] Hx. exists d. split; [now left | exact Hx].
  - destruct (forallb _ (d :: ds)); [| discriminate].
    intros [= <-] Hx.
    change (In x (unique (flat_map columns (d :: ds)))) in Hx.
    rewrite unique_In, in_flat_map in Hx. exact Hx.
Qed.

(** ** Line 20 once more *)

Lemma lower_char_lower_char (c : ascii) :
  PyStr.lower_char (PyStr.lower_char c) = PyStr.lower_char c.
Proof. destruct c as [[] [] [] [] [] [] [] []]; reflexivity. Qed.

Lemma isspace_lower_char (c : ascii) :
  PyStr.isspace (PyStr.lower_char c) = PyStr.isspace c.
Proof. destruct c as [[] [] [] [] [] [] [] []]; reflexivity. Qed.

Lemma lower_lower (s : string) : PyStr.lower (PyStr.lower s) = PyStr.lower s.
Proof.
  induction s as [|c s IH]; simpl; auto.
  now rewrite lower_char_lower_char, IH.
Qed.

Lemma lstrip_lower (s : string) :
  PyStr.lstrip (PyStr.lower s) = PyStr.lower (PyStr.lstrip s).
Proof.
  induction s as [|c s IH]; simpl; auto.
  rewrite isspace_lower_char. destruct (PyStr.isspace c); auto.
Qed.

Lemma rstrip_lower (s : string) :
  PyStr.rstrip (PyStr.lower s) = PyStr.lower (PyStr.rstrip s).
Proof.
  induction s as [|c s IH]; simpl; auto.
  rewrite IH, isspace_lower_char.
  destruct (PyStr.rstrip s); simpl; auto.
  destruct (PyStr.isspace c); auto.
Qed.

Lemma rstrip_cons (c a : ascii) (u t : string) :
  PyStr.rstrip u = String a t ->
  PyStr.rstrip (String c u) = String c (String a t).
Proof. intros H. simpl. now rewrite H. Qed.

Lemma rstrip_rstrip (s : string) :
  PyStr.rstrip (PyStr.rstrip s) = PyStr.rstrip s.
Proof.
  induction s as [|c s IH]; simpl; auto.
  destruct (PyStr.rstrip s) as [|a t] eqn:E.
  - destruct (PyStr.isspace c) eqn:Ec; simpl; auto. now rewrite Ec.
  - now apply rstrip_cons.
Qed.

Lemma lstrip_rstrip_lstrip (s : string) :
  PyStr.lstrip (PyStr.rstrip (PyStr.lstrip s)) = PyStr.rstrip (PyStr.lstrip s).
Proof.
  induction s as [|c s IH]; simpl; auto.
  destruct (PyStr.isspace c) eqn:Ec; auto.
  simpl. destruct (PyStr.rstrip s); rewrite ?Ec; simpl; now rewrite Ec.
Qed.

Lemma strip_strip (s : string) : PyStr.strip (PyStr.strip s) = PyStr.strip s.
Proof.
  unfold PyStr.strip. now rewrite lstrip_rstrip_lstrip, rstrip_rstrip.
Qed.

(** ** The function as a whole *)

Section Extras.

Variable read_csv : Path -> result DataFrame.
Variable to_datetime : list cell -> result (list cell).

Lemma loaded_from (all_files : list Path) (d : DataFrame) :
  In d (loaded read_csv all_files) <->
  exists file, In file all_files /\ try_body read_csv file = Ok d.
Proof.
  unfold loaded. rewrite in_flat_map. split.
  - intros (file & Hin & Hd). exists file. split; [exact Hin |].
    destruct (try_body read_csv file) as [df|e]; [| contradiction].
    destruct Hd as [<- | []]. reflexivity.
  - intros (file & Hin & Hd). exists file. split; [exact Hin |].
    rewrite Hd. now left.
Qed.

Lemma failed_from (all_files : list Path) (file : Path) (e : exn) :
  In (file, e) (failed read_csv all_files) <->
  In file all_files /\ try_body read_csv file = Raise e.
Proof.
  unfold failed. rewrite in_flat_map. split.
  - intros (f & Hin & He).
    destruct (try_body read_csv f) as [df|e'] eqn:E; [contradiction |].
    destruct He as [[= <- <-] | []]. now split.
  - intros [Hin He]. exists file. split; [exact Hin |].
    rewrite He. now left.
Qed.

Lemma try_body_from (file : Path) (d : DataFrame) :
  try_body read_csv file = Ok d ->
  exists df b,
    read_csv file = Ok df
    /\ d = setitem_scalar "building" (Str b) (rename_columns canonical df).
Proof.
  unfold try_body. destruct (read_csv file) as [df|e]; [| discriminate].
  cbn [bind]. destruct (list_item _ 1) as [b|e]; [| discriminate].
  cbn [bind]. intros [= <-]. eauto.
Qed.

Lemma setitem_scalar_has_key (key : string) (v : cell) (df : DataFrame) :
  In key (columns (setitem_scalar key v df)).
Proof.
  unfold setitem_scalar. destruct (has_label key (columns df)) eqn:E; simpl.
  - now apply has_label_In.
  - apply in_or_app. right. now left.
Qed.

(** X1.  The loop collects or prints every file: the frames and the lines
    are together as many as the files, and a line is printed for a file
    exactly when the file raises inside the [try]. *)
Theorem every_file_is_collected_or_printed (all_files : list Path) :
  List.length (df_list (ingest read_csv all_files))
  + List.length (console (ingest read_csv all_files))
  = List.length all_files
  /\ forall file e,
       In (file, e) (console (ingest read_csv all_files)) <->
       In file all_files /\ try_body read_csv file = Raise e.
Proof.
  rewrite ingest_loaded_failed. cbn [df_list console]. split.
  - induction all_files as [|file files IH]; [reflexivity |].
    change (file :: files) with ([file] ++ files).
    rewrite loaded_app, failed_app, !length_app.
    destruct (try_body read_csv file) as [df|e] eqn:E.
    + destruct (loaded_one_ok read_csv file E) as [-> ->]. simpl. lia.
    + destruct (loaded_one_raise read_csv file E) as [-> ->]. simpl. lia.
  - apply failed_from.
Qed.

(** X2.  When the frames are concatenated and no file that is read has a
    column whose canonical label is [timestamp], line 33 raises
    [KeyError]. *)
Theorem no_timestamp_column_raises_KeyError
    (all_files : list Path) (df_combined : DataFrame) :
  concat (df_list (ingest read_csv all_files)) = Ok df_combined ->
  (forall file df, In file all_files -> read_csv file = Ok df ->
                   ~ In "timestamp" (map canonical (columns df))) ->
  load_and_combine_data read_csv to_datetime all_files
  = (Raise (KeyError "timestamp"), console (ingest read_csv all_files)).
Proof.
  intros Hconcat Hnone. unfold load_and_combine_data.
  rewrite Hconcat. cbn [bind]. unfold convert_timestamp.
  rewrite (proj1 (count_occ_not_In string_dec (columns df_combined)
                    "timestamp")); [reflexivity |].
  intros Hin.
  destruct (@concat_columns_from _ _ _ Hconcat Hin) as (o & Ho & Hts).
  rewrite ingest_loaded_failed in Ho. cbn [df_list] in Ho.
  apply loaded_from in Ho as (file & Hfile & Hbody).
  destruct (@try_body_from _ _ Hbody) as (df & b & Hread & ->).
  apply (Hnone file df Hfile Hread).
  destruct (setitem_scalar_columns "building" (Str b)
              (rename_columns canonical df)) as [E | E];
    rewrite E in Hts; cbn [rename_columns columns] in Hts;
    [exact Hts |].
  apply in_app_or in Hts as [Hts | [Hts | []]];
    [exact Hts | discriminate].
Qed.

(** X3.  A frame that the function returns has a [building] column and
    exactly one [timestamp] column. *)
Theorem returned_frame_has_building_and_timestamp
    (all_files : list Path) (ds : DataFrame) (out : list message) :
  load_and_combine_data read_csv to_datetime all_files = (Ok ds, out) ->
  In "building" (columns ds)
  /\ count_occ string_dec (columns ds) "timestamp" = 1.
Proof.
  intros Hload. pose proof Hload as Hload'.
  rewrite load_unfold in Hload'. injection Hload' as H _.
  destruct (concat (loaded read_csv all_files)) as [m|e] eqn:Hm;
    [| discriminate].
  cbn [bind] in H. split.
  - destruct (loaded read_csv all_files) as [|d ds'] eqn:El;
      [discriminate |].
    assert (Hd : In d (loaded read_csv all_files))
      by (rewrite El; now left).
    apply (@load_columns _ _ _ _ _ Hload d "building" Hd).
    apply loaded_from in Hd as (file & _ & Hbody).
    destruct (@try_body_from _ _ Hbody) as (df & b & _ & ->).
    apply setitem_scalar_has_key.
  - unfold convert_timestamp in H.
    destruct (count_occ string_dec (columns m) "timestamp")
      as [|[|n]] eqn:Hc; try discriminate.
    destruct (to_datetime _) as [series|e]; [| discriminate].
    cbn [bind] in H. injection H as <-. exact Hc.
Qed.

(** X4.  When [read_csv] gives rectangular frames, every collected frame
    and the frame that the function returns are rectangular. *)
Theorem returned_frame_is_rectangular
    (all_files : list Path) (ds : DataFrame) (out : list message) :
  (forall file df, In file all_files -> read_csv file = Ok df ->
                   rectangular df) ->
  load_and_combine_data read_csv to_datetime all_files = (Ok ds, out) ->
  Forall rectangular (df_list (ingest read_csv all_files))
  /\ rectangular ds.
Proof.
  intros Hrect Hload.
  assert (Hall : Forall rectangular (loaded read_csv all_files)).
  { apply Forall_forall. intros d Hd.
    apply loaded_from in Hd as (file & Hfile & Hbody).
    destruct (@try_body_from _ _ Hbody) as (df & b & Hread & ->).
    apply setitem_scalar_rectangular, rename_columns_rectangular.
    exact (Hrect file df Hfile Hread). }
  rewrite ingest_loaded_failed. cbn [df_list]. split; [exact Hall |].
  rewrite load_unfold in Hload. injection Hload as H _.
  destruct (concat (loaded read_csv all_files)) as [m|e] eqn:Hm;
    [| discriminate].
  cbn [bind] in H. unfold convert_timestamp in H.
  destruct (count_occ string_dec (columns m) "timestamp")
    as [|[|n]]; try discriminate.
  destruct (to_datetime _) as [series|e]; [| discriminate].
  cbn [bind] in H. injection H as <-.
  apply setitem_series_rectangular. exact (@concat_rectangular _ _ Hall Hm).
Qed.

(** X5.  When [read_csv] gives rectangular frames and [pd.to_datetime]
    returns one value per row, the [timestamp] column of the returned frame
    is what [pd.to_datetime] returned, row for row. *)
Theorem timestamp_column_is_what_to_datetime_returns
    (all_files : list Path) (df_combined : DataFrame) (series : list cell) :
  (forall file df, In file all_files -> read_csv file = Ok df ->
                   rectangular df) ->
  concat (df_list (ingest read_csv all_files)) = Ok df_combined ->
  count_occ string_dec (columns df_combined) "timestamp" = 1 ->
  to_datetime (column "timestamp" df_combined) = Ok series ->
  List.length series = List.length (rows df_combined) ->
  exists ds,
    load_and_combine_data read_csv to_datetime all_files
    = (Ok ds, console (ingest read_csv all_files))
    /\ column "timestamp" ds = series
    /\ List.length (rows ds) = List.length (rows df_combined).
Proof.
  intros Hrect Hconcat Hcount Hparse Hlen.
  exists (setitem_series "timestamp" series df_combined).
  assert (Hall : Forall rectangular (df_list (ingest read_csv all_files))).
  { rewrite ingest_loaded_failed. cbn [df_list].
    apply Forall_forall. intros d Hd.
    apply loaded_from in Hd as (file & Hfile & Hbody).
    destruct (@try_body_from _ _ Hbody) as (df & b & Hread & ->).
    apply setitem_scalar_rectangular, rename_columns_rectangular.
    exact (Hrect file df Hfile Hread). }
  split; [| split].
  - unfold load_and_combine_data. rewrite Hconcat. cbn [bind].
    unfold convert_timestamp. now rewrite Hcount, Hparse.
  - apply column_setitem_series; [| | exact Hlen].
    + exact (@concat_rectangular _ _ Hall Hconcat).
    + apply (count_occ_In string_dec). lia.
  - unfold setitem_series. cbn [rows]. apply assign_series_length.
Qed.

(** X6.  The function returns when some collected frame has a [timestamp]
    column, no collected frame repeats a label, and [pd.to_datetime]
    accepts the column of the concatenated frame. *)
Theorem load_returns_when_dates_parse
    (all_files : list Path) (df : DataFrame) :
  In df (df_list (ingest read_csv all_files)) ->
  In "timestamp" (columns df) ->
  Forall (fun o => NoDup (columns o)) (df_list (ingest read_csv all_files)) ->
  exists df_combined,
    concat (df_list (ingest read_csv all_files)) = Ok df_combined
    /\ forall series,
         to_datetime (column "timestamp" df_combined) = Ok series ->
         load_and_combine_data read_csv to_datetime all_files
         = (Ok (setitem_series "timestamp" series df_combined),
            console (ingest read_csv all_files)).
Proof.
  intros Hdf Hts Hnd.
  destruct (@concat_returns (df_list (ingest read_csv all_files)))
    as (m & Hm & Hndm);
    [intros E; now rewrite E in Hdf | assumption |].
  exists m. split; [exact Hm |]. intros series Hparse.
  unfold load_and_combine_data. rewrite Hm. cbn [bind].
  unfold convert_timestamp.
  rewrite (@count_occ_NoDup_In "timestamp" (columns m) Hndm
             (@concat_columns _ m Hm df "timestamp" Hdf Hts)).
  now rewrite Hparse.
Qed.

End Extras.

(** X7.  The canonical label is trimmed and lowercase: [strip] and [lower]
    leave it as it is, and so does line 20 applied a second time. *)
Theorem canonical_is_trimmed_and_lowercase (label : string) :
  PyStr.strip (canonical label) = canonical label
  /\ PyStr.lower (canonical label) = canonical label
  /\ canonical (canonical label) = canonical label.
Proof.
  unfold canonical, PyStr.strip.
  assert (H1 : PyStr.rstrip (PyStr.lstrip
                 (PyStr.lower (PyStr.rstrip (PyStr.lstrip label))))
               = PyStr.lower (PyStr.rstrip (PyStr.lstrip label))).
  { rewrite lstrip_lower, rstrip_lower.
    now rewrite lstrip_rstrip_lstrip, rstrip_rstrip. }
  split; [exact H1 |]. split; [apply lower_lower |].
  now rewrite H1, lower_lower.
Qed.

(** * The classes *)

(** ** The dict *)

Lemma dict_contains_get {V} (d : dict V) (key : string) :
  dict_contains d key = false <-> dict_get d key = None.
Proof.
  unfold dict_contains. induction d as [|[k v] d IH]; simpl.
  - tauto.
  - rewrite (String.eqb_sym key k).
    destruct (String.eqb k key); simpl; [| exact IH].
    split; discriminate.
Qed.

Lemma dict_get_mutate_same {V} (f : V -> V) (d : dict V) (key : string) :
  dict_get (dict_mutate f d key) key = option_map f (dict_get d key).
Proof.
  induction d as [|[k v] d IH]; simpl; auto.
  destruct (String.eqb k key) eqn:E; simpl; rewrite E; auto.
Qed.

Lemma dict_get_mutate_other {V} (f : V -> V) (d : dict V) (key k' : string) :
  k' <> key -> dict_get (dict_mutate f d key) k' = dict_get d k'.
Proof.
  intros Hne. induction d as [|[k v] d IH]; simpl; auto.
  destruct (String.eqb_spec k key) as [->|Hk]; simpl.
  - destruct (String.eqb_spec key k'); [congruence | reflexivity].
  - now rewrite IH.
Qed.

Lemma dict_keys_mutate {V} (f : V -> V) (d : dict V) (key : string) :
  map fst (dict_mutate f d key) = map fst d.
Proof.
  induction d as [|[k v] d IH]; simpl; auto.
  destruct (String.eqb k key); simpl; congruence.
Qed.

Lemma dict_get_insert {V} (d : dict V) (key k' : string) (v : V) :
  dict_get (dict_insert d key v) k'
  = match dict_get d k' with
    | Some x => Some x
    | None => if String.eqb key k' then Some v else None
    end.
Proof.
  unfold dict_insert. induction d as [|[k x] d IH]; simpl; auto.
  destruct (String.eqb k k'); auto.
Qed.

Lemma unique_from_snoc (x : string) (l seen : list string) :
  unique_from seen (l ++ [x])
  = unique_from seen l
    ++ (if has_label x seen || has_label x l then [] else [x]).
Proof.
  revert seen. induction l as [|y ys IH]; intros seen; simpl.
  - rewrite orb_false_r. destruct (has_label x seen); reflexivity.
  - destruct (has_label y seen) eqn:Ey.
    + rewrite IH. f_equal.
      destruct (String.eqb_spec x y) as [->|Hne]; simpl; auto.
      now rewrite Ey.
    + simpl. rewrite IH. do 2 f_equal. simpl.
      destruct (String.eqb x y), (has_label x seen), (has_label x ys);
        reflexivity.
Qed.

Lemma unique_snoc (x : string) (l : list string) :
  unique (l ++ [x]) = if has_label x l then unique l else unique l ++ [x].
Proof.
  unfold unique. rewrite unique_from_snoc. simpl.
  destruct (has_label x l); [apply app_nil_r | reflexivity].
Qed.

Lemma has_label_unique (x : string) (l : list string) :
  has_label x (unique l) = has_label x l.
Proof.
  destruct (has_label x l) eqn:E.
  - apply has_label_In, unique_In, has_label_In, E.
  - apply has_label_not_In. rewrite unique_In. now apply has_label_not_In.
Qed.

Lemma has_label_snoc (x y : string) (l : list string) :
  has_label x (l ++ [y]) = has_label x l || String.eqb x y.
Proof.
  unfold has_label. rewrite existsb_app. simpl. now rewrite orb_false_r.
Qed.

Section MeterProperties.

Variable K : Type.
Variable kwh_sum : list K -> K.
Variable kwh_gt : K -> K -> bool.
Variable kwh_str : K -> string.
Variable T : Type.
Variable timestamp_str : T -> string.

Lemma readings_for_snoc (n k : string) (r : MeterReading K T)
    (calls : list (string * MeterReading K T)) :
  readings_for n (calls ++ [(k, r)])
  = readings_for n calls ++ (if String.eqb k n then [r] else []).
Proof.
  unfold readings_for. rewrite filter_app, map_app. simpl.
  destruct (String.eqb k n); reflexivity.
Qed.

Lemma readings_for_absent (n : string)
    (calls : list (string * MeterReading K T)) :
  has_label n (map fst calls) = false -> readings_for n calls = [].
Proof.
  unfold readings_for, has_label.
  induction calls as [|[k r] calls IH]; simpl; auto.
  rewrite (String.eqb_sym n k). destruct (String.eqb k n); simpl; auto.
  discriminate.
Qed.

Lemma readings_for_present (n : string)
    (calls : list (string * MeterReading K T)) :
  has_label n (map fst calls) = true -> readings_for n calls <> [].
Proof.
  unfold readings_for, has_label.
  induction calls as [|[k r] calls IH]; simpl; [discriminate |].
  rewrite (String.eqb_sym n k). destruct (String.eqb k n); simpl; auto.
  discriminate.
Qed.

Lemma manager_after_snoc (calls : list (string * MeterReading K T))
    (k : string) (r : MeterReading K T) :
  manager_after (calls ++ [(k, r)])
  = BuildingManager_add_reading (manager_after calls) k r.
Proof. unfold manager_after. now rewrite fold_left_app. Qed.

Lemma dict_mutate_last (f : Building K T -> Building K T)
    (d : dict (Building K T)) (k : string) (v : Building K T) :
  dict_contains d k = false ->
  dict_mutate f (dict_insert d k v) k = d ++ [(k, f v)].
Proof.
  unfold dict_contains, dict_insert.
  induction d as [|[k' x] d IH]; simpl.
  - now rewrite String.eqb_refl.
  - rewrite (String.eqb_sym k k'). destruct (String.eqb k' k); simpl;
      [discriminate |].
    intros H. now rewrite IH.
Qed.

(** What a manager holds after a sequence of calls. *)
Lemma manager_after_holds (calls : list (string * MeterReading K T)) :
  map fst (buildings (manager_after calls)) = unique (map fst calls)
  /\ forall n,
       dict_get (buildings (manager_after calls)) n
       = if has_label n (map fst calls)
         then Some {| name := n; meter_readings := readings_for n calls |}
         else None.
Proof.
  induction calls as [|[k r] calls [IHkeys IHget]] using rev_ind.
  - split; reflexivity.
  - rewrite manager_after_snoc, map_app. cbn [map fst].
    rewrite unique_snoc. unfold BuildingManager_add_reading.
    assert (Hc : dict_contains (buildings (manager_after calls)) k
                 = has_label k (map fst calls)).
    { unfold dict_contains. now rewrite IHkeys, has_label_unique. }
    rewrite Hc. cbn [buildings].
    destruct (has_label k (map fst calls)) eqn:Ek.
    + split; [now rewrite dict_keys_mutate |].
      intros n. rewrite has_label_snoc, readings_for_snoc.
      destruct (String.eqb_spec k n) as [->|Hne].
      * rewrite dict_get_mutate_same, IHget, Ek, String.eqb_refl, orb_true_r.
        reflexivity.
      * rewrite dict_get_mutate_other, IHget by congruence.
        rewrite app_nil_r.
        destruct (String.eqb_spec n k); [congruence |].
        now rewrite orb_false_r.
    + rewrite dict_mutate_last by (now rewrite Hc).
      split; [now rewrite map_app, IHkeys |].
      intros n. rewrite has_label_snoc, readings_for_snoc.
      change (buildings (manager_after calls)
              ++ [(k, Building_add_reading (Building_init K T k) r)])
        with (dict_insert (buildings (manager_after calls)) k
                (Building_add_reading (Building_init K T k) r)).
      rewrite dict_get_insert, IHget.
      destruct (String.eqb_spec k n) as [->|Hne].
      * rewrite Ek, String.eqb_refl.
        now rewrite (readings_for_absent _ _ Ek).
      * rewrite app_nil_r. destruct (String.eqb_spec n k); [congruence |].
        rewrite orb_false_r. destruct (has_label n (map fst calls)); auto.
Qed.

Lemma max_from_stays (p : MeterReading K T) (post : list (MeterReading K T)) :
  (forall r, In r post -> kwh_gt (kwh r) (kwh p) = false) ->
  max_from kwh_gt p post = p.
Proof.
  induction post as [|r post IH]; simpl; auto.
  intros H. rewrite (H r (or_introl eq_refl)). apply IH.
  intros r' Hr'. apply H. now right.
Qed.

Lemma max_from_reaches (best p : MeterReading K T)
    (pre post : list (MeterReading K T)) :
  kwh_gt (kwh p) (kwh best) = true ->
  (forall r, In r pre -> kwh_gt (kwh p) (kwh r) = true) ->
  (forall r, In r post -> kwh_gt (kwh r) (kwh p) = false) ->
  max_from kwh_gt best (pre ++ p :: post) = p.
Proof.
  revert best. induction pre as [|r pre IH]; intros best Hbest Hpre Hpost.
  - simpl. rewrite Hbest. now apply max_from_stays.
  - simpl. apply IH; [| intros r' Hr'; apply Hpre; now right | exact Hpost].
    destruct (kwh_gt (kwh r) (kwh best)); [| exact Hbest].
    apply Hpre. now left.
Qed.

(** X8.  With [int] readings, after [add_reading] the total of a building
    is its total before plus the [kwh] of the new reading. *)
Theorem add_reading_adds_to_total
    (b : Building Z T) (r : MeterReading Z T) :
  total_consumption int_sum (Building_add_reading b r)
  = (total_consumption int_sum b + kwh r)%Z.
Proof.
  unfold total_consumption, int_sum, Building_add_reading.
  cbn [meter_readings]. now rewrite map_app, fold_left_app.
Qed.

(** X9.  [BuildingManager.add_reading(n, r)] appends [r] to the building
    stored under [n], which is a new [Building(n)] when the manager had
    none, and leaves every other building as it was. *)
Theorem manager_add_reading_updates_one_building
    (m : BuildingManager K T) (n : string) (r : MeterReading K T) :
  dict_get (buildings (BuildingManager_add_reading m n r)) n
  = Some (Building_add_reading
            (match dict_get (buildings m) n with
             | Some b => b
             | None => Building_init K T n
             end) r)
  /\ forall n', n' <> n ->
       dict_get (buildings (BuildingManager_add_reading m n r)) n'
       = dict_get (buildings m) n'.
Proof.
  unfold BuildingManager_add_reading. cbn [buildings].
  destruct (dict_contains (buildings m) n) eqn:Ec.
  - split.
    + rewrite dict_get_mutate_same.
      destruct (dict_get (buildings m) n) eqn:Eg; [reflexivity |].
      apply dict_contains_get in Eg. congruence.
    + intros n' Hne. now apply dict_get_mutate_other.
  - rewrite dict_mutate_last by exact Ec.
    pose proof (proj1 (dict_contains_get _ _) Ec) as Eg. rewrite Eg.
    change (buildings m ++ [(n, Building_add_reading (Building_init K T n) r)])
      with (dict_insert (buildings m) n
              (Building_add_reading (Building_init K T n) r)).
    split.
    + now rewrite dict_get_insert, Eg, String.eqb_refl.
    + intros n' Hne. rewrite dict_get_insert.
      destruct (dict_get (buildings m) n'); [reflexivity |].
      destruct (String.eqb_spec n n'); [congruence | reflexivity].
Qed.

(** X10.  After any sequence of calls on a fresh manager, the buildings are
    the names of the calls in order of first appearance, and each building
    holds, under its own name, the readings passed for it, in the order of
    the calls. *)
Theorem manager_groups_readings_by_building
    (calls : list (string * MeterReading K T)) :
  map fst (buildings (manager_after calls)) = unique (map fst calls)
  /\ forall n,
       dict_get (buildings (manager_after calls)) n
       = if has_label n (map fst calls)
         then Some {| name := n; meter_readings := readings_for n calls |}
         else None.
Proof. apply manager_after_holds. Qed.

(** X11.  [generate_report] raises [ValueError] on a building without
    readings and returns a text on any other; a building held by a manager
    always has a reading, so its report is returned. *)
Theorem report_needs_a_reading (b : Building K T) :
  (meter_readings b = [] ->
   exists msg,
     generate_report kwh_sum kwh_gt kwh_str timestamp_str b
     = Raise (ValueError msg))
  /\ (meter_readings b <> [] ->
      exists text,
        generate_report kwh_sum kwh_gt kwh_str timestamp_str b
        = Ok text)
  /\ (forall calls n,
        dict_get (buildings (manager_after calls)) n = Some b ->
        exists text,
          generate_report kwh_sum kwh_gt kwh_str timestamp_str b
          = Ok text).
Proof.
  assert (Hreturns : meter_readings b <> [] ->
            exists text,
              generate_report kwh_sum kwh_gt kwh_str timestamp_str b
              = Ok text).
  { unfold generate_report. intros Hne.
    destruct (meter_readings b) as [|r rs]; [congruence |]. simpl. eauto. }
  split; [| split; [exact Hreturns |]].
  - unfold generate_report. intros ->. simpl. eauto.
  - intros calls n Hget. apply Hreturns.
    destruct (manager_after_holds calls) as [_ Hholds].
    rewrite Hholds in Hget.
    destruct (has_label n (map fst calls)) eqn:E; [| discriminate].
    injection Hget as <-. cbn [meter_readings].
    now apply readings_for_present.
Qed.

(** X12.  The report names the total and the earliest reading that no
    reading exceeds: a reading whose [kwh] is greater than that of every
    earlier reading and not exceeded by any later one. *)
Theorem report_names_first_maximum
    (b : Building K T) (pre post : list (MeterReading K T))
    (p : MeterReading K T) :
  meter_readings b = pre ++ p :: post ->
  (forall r, In r pre -> kwh_gt (kwh p) (kwh r) = true) ->
  (forall r, In r post -> kwh_gt (kwh r) (kwh p) = false) ->
  generate_report kwh_sum kwh_gt kwh_str timestamp_str b
  = Ok ("Building: " ++ name b ++ nl
        ++ "Total Consumption: "
        ++ kwh_str (total_consumption kwh_sum b) ++ nl
        ++ "Peak: " ++ kwh_str (kwh p) ++ " at "
        ++ timestamp_str (timestamp p) ++ nl)%string.
Proof.
  intros Hrs Hpre Hpost. unfold generate_report. rewrite Hrs.
  assert (Hmax : py_max kwh_gt (pre ++ p :: post) = Ok p).
  { destruct pre as [|r pre]; simpl.
    - now rewrite max_from_stays.
    - rewrite max_from_reaches; auto.
      + apply Hpre. now left.
      + intros r' Hr'. apply Hpre. now right. }
  rewrite Hmax. reflexivity.
Qed.

End MeterProperties.

(** * The further properties on the examples *)

Lemma campus_files_rectangular (all_files : list Path) (file : Path)
    (df : DataFrame) :
  In file all_files -> read_from campus file = Ok df -> rectangular df.
Proof. intros _. apply campus_rectangular. Qed.

(** elec_E_may.csv alone: no file has a timestamp column. *)
Lemma no_timestamp_column_raises_KeyError_witness :
  run ["elec_E_may.csv"]
  = (Raise (KeyError "timestamp"), printed ["elec_E_may.csv"]).
Proof.
  apply (@no_timestamp_column_raises_KeyError
           (read_from campus) to_datetime_texts ["elec_E_may.csv"]
           (mkFrame ["kwh"; "meter"; "building"]
              [ [Num "7.0"; Str "m-2"; Str "E"] ])).
  - vm_compute. reflexivity.
  - intros file df [<- | []] Hread. vm_compute in Hread.
    injection Hread as <-. simpl. intuition discriminate.
Defined.

Lemma returned_frame_has_building_and_timestamp_witness :
  In "building" (columns frame_A_E)
  /\ count_occ string_dec (columns frame_A_E) "timestamp" = 1.
Proof.
  apply (@returned_frame_has_building_and_timestamp
           (read_from campus) to_datetime_texts
           ["elec_A_jan.csv"; "elec_E_may.csv"] frame_A_E []).
  vm_compute. reflexivity.
Defined.

Lemma returned_frame_is_rectangular_witness :
  Forall rectangular (collected ["elec_A_jan.csv"; "elec_E_may.csv"])
  /\ rectangular frame_A_E.
Proof.
  apply (@returned_frame_is_rectangular
           (read_from campus) to_datetime_texts
           ["elec_A_jan.csv"; "elec_E_may.csv"] frame_A_E []).
  - apply campus_files_rectangular.
  - vm_compute. reflexivity.
Defined.

Lemma timestamp_column_is_what_to_datetime_returns_witness :
  exists ds,
    run ["elec_A_jan.csv"; "elec_E_may.csv"]
    = (Ok ds, printed ["elec_A_jan.csv"; "elec_E_may.csv"])
    /\ column "timestamp" ds
       = [Timestamp 1704067200000000000; Timestamp 1704070800000000000; NaT]
    /\ List.length (rows ds) = List.length (rows combined_A_E).
Proof.
  apply (@timestamp_column_is_what_to_datetime_returns
           (read_from campus) to_datetime_texts
           ["elec_A_jan.csv"; "elec_E_may.csv"] combined_A_E
           [Timestamp 1704067200000000000; Timestamp 1704070800000000000;
            NaT]).
  - apply campus_files_rectangular.
  - vm_compute. reflexivity.
  - vm_compute. reflexivity.
  - vm_compute. reflexivity.
  - reflexivity.
Defined.

Lemma load_returns_when_dates_parse_witness :
  exists df_combined,
    concat (collected ["elec_A_jan.csv"; "elec_E_may.csv"]) = Ok df_combined
    /\ run ["elec_A_jan.csv"; "elec_E_may.csv"]
       = (Ok (setitem_series "timestamp"
                [Timestamp 1704067200000000000;
                 Timestamp 1704070800000000000; NaT] df_combined),
          printed ["elec_A_jan.csv"; "elec_E_may.csv"]).
Proof.
  destruct (@load_returns_when_dates_parse
              (read_from campus) to_datetime_texts
              ["elec_A_jan.csv"; "elec_E_may.csv"]
              (setitem_scalar "building" (Str "A")
                 (rename_columns canonical elec_A)))
    as (m & Hm & Hload).
  - vm_compute. left. reflexivity.
  - vm_compute. left. reflexivity.
  - vm_compute. repeat constructor; simpl; intuition discriminate.
  - exists m. split; [exact Hm |]. apply Hload.
    vm_compute in Hm. injection Hm as <-. vm_compute. reflexivity.
Defined.

(** A building without readings, the building [hall], and the manager after
    three calls. *)
Lemma report_needs_a_reading_witness :
  (exists msg, report (Building_init Z string "A") = Raise (ValueError msg))
  /\ (exists text, report hall = Ok text)
  /\ (exists text,
        report {| name := "A";
                  meter_readings := [reading "t1" 5; reading "t3" 1] |}
        = Ok text).
Proof.
  split; [| split].
  - apply (@report_needs_a_reading Z int_sum Z.gtb decimal string
             (fun t => t) (Building_init Z string "A")).
    reflexivity.
  - apply (@report_needs_a_reading Z int_sum Z.gtb decimal string
             (fun t => t) hall).
    discriminate.
  - apply (@report_needs_a_reading Z int_sum Z.gtb decimal string
             (fun t => t)
             {| name := "A";
                meter_readings := [reading "t1" 5; reading "t3" 1] |})
      with (calls := calls_A_B_A) (n := "A").
    reflexivity.
Defined.

(** [hall]: the readings t2 and t3 both have the largest [kwh]; the report
    names t2. *)
Lemma report_names_first_maximum_witness :
  report hall
  = Ok ("Building: A" ++ nl ++ "Total Consumption: 23" ++ nl
        ++ "Peak: 9 at t2" ++ nl)%string.
Proof.
  apply (@report_names_first_maximum Z int_sum Z.gtb decimal string
           (fun t => t) hall [reading "t1" 5] [reading "t3" 9]
           (reading "t2" 9)).
  - reflexivity.
  - intros r [<- | []]. reflexivity.
  - intros r [<- | []]. reflexivity.
Defined.

(** * Column order and file names *)

Lemma unique_from_ext (seen seen' l : list string) :
  (forall x, In x seen <-> In x seen') ->
  unique_from seen l = unique_from seen' l.
Proof.
  revert seen seen'. induction l as [|y ys IH]; intros seen seen' H; simpl;
    auto.
  assert (E : has_label y seen = has_label y seen').
  { destruct (has_label y seen') eqn:E'.
    - apply has_label_In, H, has_label_In, E'.
    - apply has_label_not_In. rewrite H. now apply has_label_not_In. }
  rewrite E. destruct (has_label y seen').
  - now apply IH.
  - f_equal. apply IH. intros x. simpl. now rewrite H.
Qed.

Lemma unique_from_app (seen l l' : list string) :
  unique_from seen (l ++ l')
  = unique_from seen l ++ unique_from (l ++ seen) l'.
Proof.
  revert seen. induction l as [|y ys IH]; intros seen; simpl; auto.
  destruct (has_label y seen) eqn:E.
  - rewrite IH. f_equal. apply unique_from_ext. intros x. simpl.
    apply has_label_In in E. rewrite !in_app_iff.
    split; [tauto | intros [-> | H]; tauto].
  - simpl. rewrite IH. do 2 f_equal. apply unique_from_ext.
    intros x. simpl. rewrite !in_app_iff. simpl. tauto.
Qed.

Lemma unique_from_seen (seen l : list string) :
  incl l seen -> unique_from seen l = [].
Proof.
  revert seen. induction l as [|y ys IH]; intros seen H; simpl; auto.
  rewrite (proj2 (has_label_In y seen)) by (apply H; now left).
  apply IH. intros x Hx. apply H. now right.
Qed.

Lemma unique_from_NoDup_fresh (seen l : list string) :
  NoDup l -> (forall x, In x l -> ~ In x seen) -> unique_from seen l = l.
Proof.
  intros Hnd. revert seen.
  induction Hnd as [|y ys Hy _ IH]; intros seen H; simpl; auto.
  rewrite (proj2 (has_label_not_In y seen)) by (apply H; now left).
  f_equal. apply IH. intros x Hx [<- | Hs]; [contradiction |].
  apply (H x); [now right | assumption].
Qed.

Lemma unique_same_headers (labels : list string) (objs : list DataFrame) :
  NoDup labels -> Forall (fun o => columns o = labels) objs ->
  unique_from labels (flat_map columns objs) = [].
Proof.
  intros _ H. apply unique_from_seen. intros x Hx.
  apply in_flat_map in Hx as (o & Ho & Hx).
  rewrite Forall_forall in H. now rewrite <- (H o Ho).
Qed.

Lemma concat_columns_order (objs : list DataFrame) (m : DataFrame) :
  Forall (fun o => NoDup (columns o)) objs -> concat objs = Ok m ->
  columns m = unique (flat_map columns objs).
Proof.
  unfold concat. destruct objs as [|d ds]; [discriminate |].
  intros Hnd. destruct (forallb _ ds) eqn:Hsame.
  - intros [= <-]. cbn [columns flat_map]. unfold unique.
    rewrite unique_from_app, app_nil_r.
    rewrite unique_from_NoDup_fresh; [| now inversion Hnd | now intros x _].
    rewrite (@unique_same_headers (columns d) ds);
      [now rewrite app_nil_r | now inversion Hnd |].
    apply Forall_forall. intros o Ho.
    rewrite forallb_forall in Hsame. specialize (Hsame o Ho).
    now destruct (list_eq_dec string_dec (columns o) (columns d)).
  - destruct (forallb _ (d :: ds)); [| discriminate].
    now intros [= <-].
Qed.

Lemma rfind_dot_csv (s : string) :
  PyStr.rfind_dot (s ++ ".csv") = Some (String.length s).
Proof.
  induction s as [|c s IH]; [reflexivity |].
  cbn [String.append PyStr.rfind_dot String.length]. now rewrite IH.
Qed.

Lemma substring_prefix (s t : string) :
  substring 0 (String.length s) (s ++ t) = s.
Proof.
  induction s as [|c s IH]; simpl.
  - now destruct t.
  - now rewrite IH.
Qed.

Lemma length_append (s t : string) :
  String.length (s ++ t) = String.length s + String.length t.
Proof. induction s as [|c s IH]; simpl; auto. Qed.

Section Names.

Variable read_csv : Path -> result DataFrame.
Variable to_datetime : list cell -> result (list cell).

(** X13.  When no collected frame repeats a label, the columns of the
    returned frame are the labels of the collected frames in order of first
    appearance, files taken in the order of [all_files]. *)
Theorem returned_columns_in_order_of_first_appearance
    (all_files : list Path) (ds : DataFrame) (out : list message) :
  Forall (fun o => NoDup (columns o)) (df_list (ingest read_csv all_files)) ->
  load_and_combine_data read_csv to_datetime all_files = (Ok ds, out) ->
  columns ds
  = unique (flat_map columns (df_list (ingest read_csv all_files))).
Proof.
  intros Hnd Hload. unfold load_and_combine_data in Hload.
  injection Hload as H _.
  destruct (concat (df_list (ingest read_csv all_files))) as [m|e] eqn:Hm;
    [| discriminate].
  cbn [bind] in H.
  destruct (@convert_timestamp_view to_datetime m ds [] H (@in_nil _ _))
    as [_ ->].
  now apply concat_columns_order.
Qed.

(** X14.  A CSV file named [s.csv], with [s] not empty, has the stem [s];
    when it is read and [b] is the second token of [s], the frame collected
    for it is the file's frame under canonical labels with the column
    [building] set to [b]; when [s] has no underscore the file raises
    [IndexError]. *)
Theorem csv_name_gives_building (s : string) (df : DataFrame) :
  s <> EmptyString -> read_csv (s ++ ".csv")%string = Ok df ->
  stem (s ++ ".csv")%string = s
  /\ (forall b, second_token "_" s b ->
        try_body read_csv (s ++ ".csv")%string
        = Ok (setitem_scalar "building" (Str b)
                (rename_columns canonical df)))
  /\ (free_of "_" s ->
      try_body read_csv (s ++ ".csv")%string = Raise IndexError).
Proof.
  intros Hne Hread.
  assert (Hstem : stem (s ++ ".csv")%string = s).
  { unfold stem. rewrite rfind_dot_csv, length_append. simpl.
    destruct s as [|c s']; [congruence |].
    replace ((0 <? String.length (String c s'))%nat
             && (String.length (String c s')
                 <? String.length (String c s') + 4 - 1)%nat)
      with true.
    - apply substring_prefix.
    - symmetry. apply andb_true_iff. split; apply Nat.ltb_lt; simpl; lia. }
  split; [exact Hstem |]. split.
  - intros b Htok. apply try_body_token; [exact Hread |].
    now rewrite Hstem.
  - intros Hfree. apply try_body_no_token with df; [exact Hread |].
    now rewrite Hstem.
Qed.

End Names.

Lemma returned_columns_in_order_of_first_appearance_witness :
  columns frame_A_E
  = unique (flat_map columns (collected ["elec_A_jan.csv"; "elec_E_may.csv"])).
Proof.
  apply (@returned_columns_in_order_of_first_appearance
           (read_from campus) to_datetime_texts
           ["elec_A_jan.csv"; "elec_E_may.csv"] frame_A_E []).
  - vm_compute. repeat constructor; simpl; intuition discriminate.
  - vm_compute. reflexivity.
Defined.

Lemma csv_name_gives_building_witness :
  stem ("elec_D_apr" ++ ".csv")%string = "elec_D_apr"
  /\ try_body (read_from campus) ("elec_D_apr" ++ ".csv")%string
     = Ok (setitem_scalar "building" (Str "D")
             (rename_columns canonical elec_D_own_building))
  /\ try_body (read_from campus) ("readings" ++ ".csv")%string
     = Raise IndexError.
Proof.
  destruct (@csv_name_gives_building (read_from campus) "elec_D_apr"
              elec_D_own_building) as (Hstem & Htok & _);
    [discriminate | reflexivity |].
  destruct (@csv_name_gives_building (read_from campus) "readings" elec_A)
    as (_ & _ & Hfree); [discriminate | reflexivity |].
  split; [exact Hstem |]. split.
  - apply Htok.
    apply (@elec_second_token "D" "apr"), free_of_letter. discriminate.
  - apply Hfree. simpl. repeat split; discriminate.
Defined.
